(** * applogs-timeseries-mongodb: the log generator and the search handler

    A shallow embedding of [scripts/generate_logs.py] and [webapp/app.py].
    Both programs are short sequential scripts around a document store; the
    store, the clock, the random generators and the process environment are
    kept as explicit oracles, and every call the programs make to the store
    is recorded in an event log. *)

From stdpp Require Import gmap strings list pretty.
From Stdlib Require Import ZArith Lia Ascii.

Local Open Scope Z_scope.

(** ** The Python built-ins the two programs rely on *)

Module Py.

(** Truthiness of a [str]: only the empty string is falsy. *)
Definition truthy (s : string) : bool :=
  match s with
  | EmptyString => false
  | String _ _ => true
  end.

(** Truthiness of the result of [os.getenv]: [None] and [""] are falsy. *)
Definition truthy_opt (o : option string) : bool :=
  match o with
  | None => false
  | Some s => truthy s
  end.

Definition code (c : ascii) : Z := Z.of_nat (nat_of_ascii c).

Definition is_digit (c : ascii) : bool := (48 <=? code c) && (code c <=? 57).

Definition digit_val (c : ascii) : Z := code c - 48.

Definition in_range (lo hi : ascii) (c : ascii) : bool :=
  (code lo <=? code c) && (code c <=? code hi).

(** The characters [int] skips around a literal, among the code points
    below 128: tab, line feed, vertical tab, form feed, carriage return and
    the blank. *)
Definition is_space (c : ascii) : bool :=
  ((9 <=? code c) && (code c <=? 13)) || (code c =? 32).

Fixpoint lstrip (s : string) : string :=
  match s with
  | String c s' => if is_space c then lstrip s' else s
  | EmptyString => EmptyString
  end.

Definition strip (s : string) : string :=
  String.rev (lstrip (String.rev (lstrip s))).

(** The digits of a decimal literal: at least one digit, and an underscore
    only between two digits. [seen] tells whether the previous character was
    a digit. *)
Fixpoint digits_acc (acc : Z) (seen : bool) (s : string) : option Z :=
  match s with
  | EmptyString => if seen then Some acc else None
  | String c s' =>
      if is_digit c then digits_acc (10 * acc + digit_val c) true s'
      else if Ascii.eqb c "_" then
             (if seen then digits_acc acc false s' else None)
      else None
  end.

(** [int(s)] for a [str] argument, base ten: [None] stands for [ValueError].
    Strings are sequences of 8-bit characters here, so the digits and blanks
    outside ASCII that CPython also accepts are not covered, nor is the
    interpreter's cap on the length of a literal. *)
Definition int_of_str (s : string) : option Z :=
  match strip s with
  | String "+" r => digits_acc 0 false r
  | String "-" r => Z.opp <$> digits_acc 0 false r
  | r => digits_acc 0 false r
  end.

(** *** True division and [math.ceil]

    [a / b] on two [int]s is the binary64 number nearest to the exact
    quotient, ties going to the even significand. A positive binary64 number
    is kept as [mant * 2 ^ expo] with [2^52 <= mant <= 2^53]; exponent
    overflow and subnormals cannot arise from a 64-bit count divided by the
    page size and are not modelled. *)

Record float := MkFloat { mant : Z; expo : Z }.

(** [2 ^ k <= a / b], decided on integers. *)
Definition pow2_le_ratio (k a b : Z) : bool :=
  if 0 <=? k then b * 2 ^ k <=? a else b <=? a * 2 ^ (- k).

(** The integer [k] with [2 ^ k <= a / b < 2 ^ (k + 1)], for [0 < a], [0 < b]. *)
Definition floor_log2_ratio (a b : Z) : Z :=
  let d := Z.log2 a - Z.log2 b in
  if pow2_le_ratio d a b then d else d - 1.

(** Round half to even of [n / d], for [0 <= n], [0 < d]. *)
Definition round_half_even (n d : Z) : Z :=
  let q := n / d in
  let r := n mod d in
  if (d <? 2 * r) || ((d =? 2 * r) && Z.odd q) then q + 1 else q.

(** [a / b] for [0 < a] and [0 < b]. *)
Definition true_div (a b : Z) : float :=
  let e := floor_log2_ratio a b - 52 in
  let m := if 0 <=? e then round_half_even a (b * 2 ^ e)
           else round_half_even (a * 2 ^ (- e)) b in
  MkFloat m e.

(** [math.ceil] of a positive float. *)
Definition ceil (x : float) : Z :=
  if 0 <=? expo x then mant x * 2 ^ expo x
  else - ((- mant x) / 2 ^ (- expo x)).

(** *** Naive [datetime] values

    A naive [datetime] is a count of microseconds since 0001-01-01T00:00:00
    in the proleptic Gregorian calendar; this is the order and the
    arithmetic [datetime] has. *)

Definition datetime := Z.

Definition usec_per_sec : Z := 1000000.
Definition sec_per_day : Z := 86400.

(** [datetime.timedelta(days=d, seconds=s)], in microseconds. *)
Definition timedelta (days seconds : Z) : Z :=
  (days * sec_per_day + seconds) * usec_per_sec.

Definition is_leap (y : Z) : bool :=
  (y mod 4 =? 0) && (negb (y mod 100 =? 0) || (y mod 400 =? 0)).

Definition days_in_month (y m : Z) : Z :=
  if m =? 2 then (if is_leap y then 29 else 28)
  else if (m =? 4) || (m =? 6) || (m =? 9) || (m =? 11) then 30
  else 31.

Definition days_before_year (y : Z) : Z :=
  let p := y - 1 in p * 365 + p / 4 - p / 100 + p / 400.

Fixpoint days_before_month_nat (y : Z) (m : nat) : Z :=
  match m with
  | O => 0
  | S k => days_before_month_nat y k + days_in_month y (Z.of_nat (S k))
  end.

Definition days_before_month (y m : Z) : Z :=
  days_before_month_nat y (Z.to_nat (m - 1)).

(** [datetime(y, m, d, H, M)]: [None] stands for the [ValueError] of a date
    that does not exist. *)
Definition mk_datetime (y m d H M : Z) : option datetime :=
  if (1 <=? y) && (y <=? 9999) && (1 <=? m) && (m <=? 12)
     && (1 <=? d) && (d <=? days_in_month y m)
     && (0 <=? H) && (H <=? 23) && (0 <=? M) && (M <=? 59)
  then Some ((((days_before_year y + days_before_month y m + (d - 1)) * 24 + H)
                * 60 + M) * 60 * usec_per_sec)
  else None.

(** *** [datetime.strptime] for the two formats the handler uses

    [strptime] turns the format into a regular expression, matches it
    against a prefix of the input ignoring case, and refuses input with
    characters left over. A regular expression is a function from the input
    to the list of its matches, in the order a backtracking matcher tries
    them; its first element is the match [re.match] returns. *)

Definition rx (A : Type) : Type := string -> list (A * string).

Definition rx_ret {A} (a : A) : rx A := fun s => [(a, s)].

Definition rx_bind {A B} (p : rx A) (f : A -> rx B) : rx B :=
  fun s => flat_map (fun '(a, r) => f a r) (p s).

Definition rx_alt {A} (ps : list (rx A)) : rx A :=
  fun s => flat_map (fun p => p s) ps.

(** One character satisfying [ok], returned as a digit value. *)
Definition rx_char (ok : ascii -> bool) : rx Z :=
  fun s => match s with
           | String c r => if ok c then [(digit_val c, r)] else []
           | EmptyString => []
           end.

Definition lower (c : ascii) : ascii :=
  if in_range "A" "Z" c then ascii_of_nat (nat_of_ascii c + 32) else c.

(** A literal character of the format, matched ignoring case. *)
Definition rx_lit (l : ascii) : rx unit :=
  fun s => match s with
           | String c r => if Ascii.eqb (lower c) (lower l) then [(tt, r)] else []
           | EmptyString => []
           end.

Definition is_char (l : ascii) (c : ascii) : bool := Ascii.eqb c l.

(** Two characters read as a two-digit number. *)
Definition rx_two (ok1 ok2 : ascii -> bool) : rx Z :=
  rx_bind (rx_char ok1) (fun a => rx_bind (rx_char ok2) (fun b => rx_ret (10 * a + b))).

(** [%Y]: four digits. *)
Definition rx_Y : rx Z :=
  rx_bind (rx_two is_digit is_digit) (fun hi =>
  rx_bind (rx_two is_digit is_digit) (fun lo => rx_ret (100 * hi + lo))).

(** [%m]: [1[0-2]|0[1-9]|[1-9]]. *)
Definition rx_m : rx Z :=
  rx_alt [ rx_two (is_char "1") (in_range "0" "2");
           rx_two (is_char "0") (in_range "1" "9");
           rx_char (in_range "1" "9") ].

(** [%d]: [3[0-1]|[1-2]\d|0[1-9]|[1-9]| [1-9]]. *)
Definition rx_d : rx Z :=
  rx_alt [ rx_two (is_char "3") (in_range "0" "1");
           rx_two (in_range "1" "2") is_digit;
           rx_two (is_char "0") (in_range "1" "9");
           rx_char (in_range "1" "9");
           rx_bind (rx_lit " ") (fun _ => rx_char (in_range "1" "9")) ].

(** [%H]: [2[0-3]|[0-1]\d|\d]. *)
Definition rx_H : rx Z :=
  rx_alt [ rx_two (is_char "2") (in_range "0" "3");
           rx_two (in_range "0" "1") is_digit;
           rx_char is_digit ].

(** [%M]: [[0-5]\d|\d]. *)
Definition rx_M : rx Z :=
  rx_alt [ rx_two (in_range "0" "5") is_digit;
           rx_char is_digit ].

(** The first match must use up the whole input. *)
Definition rx_full {A} (p : rx A) (s : string) : option A :=
  match p s with
  | (a, EmptyString) :: _ => Some a
  | _ => None
  end.

(** The regular expression of ['%Y-%m-%d']. *)
Definition rx_date : rx (Z * Z * Z) :=
  rx_bind rx_Y (fun y => rx_bind (rx_lit "-") (fun _ =>
  rx_bind rx_m (fun m => rx_bind (rx_lit "-") (fun _ =>
  rx_bind rx_d (fun d => rx_ret (y, m, d)))))).

(** The regular expression of ['%Y-%m-%dT%H:%M']. *)
Definition rx_date_minute : rx (Z * Z * Z * Z * Z) :=
  rx_bind rx_date (fun '(y, m, d) => rx_bind (rx_lit "T") (fun _ =>
  rx_bind rx_H (fun H => rx_bind (rx_lit ":") (fun _ =>
  rx_bind rx_M (fun M => rx_ret (y, m, d, H, M)))))).

(** [datetime.strptime(s, '%Y-%m-%dT%H:%M')]; [None] is [ValueError]. *)
Definition strptime_minute (s : string) : option datetime :=
  match rx_full rx_date_minute s with
  | Some (y, m, d, H, M) => mk_datetime y m d H M
  | None => None
  end.

(** [datetime.strptime(s, '%Y-%m-%d')]; [None] is [ValueError]. *)
Definition strptime_day (s : string) : option datetime :=
  match rx_full rx_date s with
  | Some (y, m, d) => mk_datetime y m d 0 0
  | None => None
  end.

End Py.

(** ** The document store as the programs see it (pymongo) *)

Module Pymongo.

(** The values the programs put into documents: strings, integers, times and
    the [meta] sub-document, a dictionary of strings. *)
Inductive value :=
  | VStr (s : string)
  | VInt (n : Z)
  | VTime (t : Py.datetime)
  | VSub (m : gmap string string).

(** A document is a Python [dict] with string keys. *)
Abbreviation doc := (gmap string value).

(** One entry of a query: a value to equal, or a dictionary of comparison
    operators on a time. *)
Inductive crit :=
  | CEq (v : string)
  | COps (ops : gmap string Py.datetime).

Abbreviation criteria := (gmap string crit).

Inductive stage :=
  | Match (c : criteria)
  | Sort (field : string) (direction : Z)
  | Skip (n : Z)
  | Limit (n : Z).

Inductive exn :=
  | ServerSelectionTimeoutError (msg : string)
  | CollectionInvalid (msg : string)
  | InvalidName (msg : string)
  | TypeError (msg : string)
  | ValueError (msg : string)
  | IndexError (msg : string)
  | OperationFailure (msg : string).

(** [str(e)]. *)
Definition exn_msg (e : exn) : string :=
  match e with
  | ServerSelectionTimeoutError m | CollectionInvalid m | InvalidName m
  | TypeError m | ValueError m | IndexError m | OperationFailure m => m
  end.

(** Every call that reaches the driver, in the order it is made. *)
Inductive event :=
  | EvClient (uri : option string)
  | EvPing
  | EvCreateCollection (name time_field meta_field : string) (expire : Z)
  | EvCreateIndex (field : string)
  | EvCount (c : criteria)
  | EvAggregate (p : list stage)
  | EvInsertMany (docs : list doc)
  | EvClose.

#[export] Instance value_eq_dec : EqDecision value.
Proof. solve_decision. Defined.

#[export] Instance crit_eq_dec : EqDecision crit.
Proof. solve_decision. Defined.

#[export] Instance stage_eq_dec : EqDecision stage.
Proof. solve_decision. Defined.

#[export] Instance exn_eq_dec : EqDecision exn.
Proof. solve_decision. Defined.

#[export] Instance event_eq_dec : EqDecision event.
Proof. solve_decision. Defined.

(** What the driver and the server answer: [None] or [inr] is a normal
    return, [Some e] or [inl e] a raised exception. *)
Record server := MkServer {
  srv_client : option string -> option exn;
  srv_ping : option exn;
  srv_create_collection : string -> option exn;
  srv_create_index : string -> exn + string;
  srv_count : criteria -> exn + Z;
  srv_aggregate : list stage -> exn + list doc;
  srv_insert_many : list doc -> option exn
}.

Fixpoint contains_char (c : ascii) (s : string) : bool :=
  match s with
  | EmptyString => false
  | String c' s' => Ascii.eqb c c' || contains_char c s'
  end.

Fixpoint contains (sub s : string) : bool :=
  String.prefix sub s ||
  match s with
  | EmptyString => false
  | String _ s' => contains sub s'
  end.

Definition last_char (s : string) : option ascii :=
  String.get (String.length s - 1)%nat s.

(** [Database.__init__]: the name has to be a [str], and unless it is
    ["$external"] it has to be non-empty and free of seven characters. *)
Definition check_db_name (name : option string) : exn + string :=
  match name with
  | None => inl (TypeError "name must be an instance of str")
  | Some s =>
      if String.eqb s "$external" then inr s
      else if negb (Py.truthy s) then
        inl (InvalidName "database name cannot be the empty string")
      else if existsb (fun c => contains_char c s)
                [" "; "."; "$"; "/"; "\"; "000"; "034"]%char then
        inl (InvalidName "database names cannot contain that character")
      else inr s
  end.

(** [Collection.__init__]. *)
Definition check_coll_name (name : option string) : exn + string :=
  match name with
  | None => inl (TypeError "name must be an instance of str")
  | Some s =>
      if negb (Py.truthy s) || contains ".." s then
        inl (InvalidName "collection names cannot be empty")
      else if contains_char "$" s
              && negb (String.prefix "oplog.$main" s || String.prefix "$cmd" s) then
        inl (InvalidName "collection names must not contain '$'")
      else if (match s with String "." _ => true | _ => false end)
              || (match last_char s with Some "."%char => true | _ => false end) then
        inl (InvalidName "collection names must not start or end with '.'")
      else if contains_char "000" s then
        inl (InvalidName "collection names must not contain the null character")
      else inr s
  end.

(** A key with a dot names a field of a sub-document. *)
Fixpoint split_dot (s : string) : string * option string :=
  match s with
  | EmptyString => (EmptyString, None)
  | String c r =>
      if Ascii.eqb c "." then (EmptyString, Some r)
      else let '(a, b) := split_dot r in (String c a, b)
  end.

Definition get_path (d : doc) (key : string) : option value :=
  match split_dot key with
  | (k, None) => d !! k
  | (k, Some sub) =>
      match d !! k with
      | Some (VSub m) => VStr <$> (m !! sub)
      | _ => None
      end
  end.

(** One comparison operator against a stored time. *)
Definition op_holds (op : string) (bound t : Py.datetime) : Prop :=
  if String.eqb op "$gte" then bound <= t
  else if String.eqb op "$lte" then t <= bound
  else False.

(** What one query entry asks of the field it names. *)
Definition crit_holds (c : crit) (v : option value) : Prop :=
  match c, v with
  | CEq s, Some (VStr s') => s' = s
  | COps ops, Some (VTime t) => map_Forall (fun op bound => op_holds op bound t) ops
  | _, _ => False
  end.

(** A document satisfies a query when it satisfies each of its entries. *)
Definition matches (c : criteria) (d : doc) : Prop :=
  map_Forall (fun key cr => crit_holds cr (get_path d key)) c.

#[export] Instance op_holds_dec op bound t : Decision (op_holds op bound t).
Proof. unfold op_holds. repeat case_match; apply _. Defined.

#[export] Instance crit_holds_dec c v : Decision (crit_holds c v).
Proof. unfold crit_holds. repeat case_match; apply _. Defined.

#[export] Instance matches_dec c d : Decision (matches c d).
Proof. unfold matches. apply _. Defined.

End Pymongo.

(** ** Effects: the oracles, the run-time state and the monad *)

Module Run.
Import Pymongo.

(** What lies outside the programs: the process environment once the [.env]
    file has been loaded, the draws of the [random] module, the texts Faker
    produces, the successive readings of the clock, and the store. *)
Record world := MkWorld {
  environ : gmap string string;
  rng : nat -> Z;
  faker : nat -> string;
  clock : nat -> Py.datetime;
  store : server
}.

(** How far each oracle has been consumed, the calls made to the driver so
    far and the lines printed so far, oldest first. *)
Record state := MkState {
  rng_pos : nat;
  faker_pos : nat;
  clock_pos : nat;
  events : list event;
  stdout : list string
}.

#[export] Instance state_eq_dec : EqDecision state.
Proof. solve_decision. Defined.

Definition init : state := MkState 0 0 0 [] [].

(** A computation returns a value or raises, and leaves a state either way. *)
Definition M (A : Type) : Type := state -> (exn + A) * state.

Definition ret {A} (a : A) : M A := fun st => (inr a, st).

Definition raise {A} (e : exn) : M A := fun st => (inl e, st).

Definition bind {A B} (m : M A) (k : A -> M B) : M B :=
  fun st => match m st with
            | (inr a, st') => k a st'
            | (inl e, st') => (inl e, st')
            end.

(** [try: m except <the exceptions h accepts>: h e]. *)
Definition try_except {A} (m : M A) (h : exn -> M A) : M A :=
  fun st => match m st with
            | (inl e, st') => h e st'
            | r => r
            end.

Definition lift {A} (r : exn + A) : M A :=
  match r with
  | inl e => raise e
  | inr a => ret a
  end.

Definition emit (e : event) : M unit :=
  fun st => (inr tt, MkState (rng_pos st) (faker_pos st) (clock_pos st)
                             (events st ++ [e]) (stdout st)).

Definition print (line : string) : M unit :=
  fun st => (inr tt, MkState (rng_pos st) (faker_pos st) (clock_pos st)
                             (events st) (stdout st ++ [line])).

(** The outcome of a driver call that returns nothing. *)
Definition outcome (o : option exn) : M unit :=
  match o with
  | Some e => raise e
  | None => ret tt
  end.

End Run.

Declare Scope run_scope.
Delimit Scope run_scope with run.
Notation "'let*' x ':=' m 'in' k" := (Run.bind m (fun x => k))
  (at level 10, x name, m at level 100, k at level 200) : run_scope.
Notation "m ';;' k" := (Run.bind m (fun _ => k))
  (at level 100, k at level 200, right associativity) : run_scope.
Open Scope run_scope.

(** ** scripts/generate_logs.py *)

Module Generator.
Import Pymongo Run.

Section Program.
Context (w : world).

(** *** The [random] module and Faker, reading their oracles *)

(** A draw below [n], for [0 < n]. *)
Definition randbelow (n : Z) : M Z :=
  fun st => (inr (rng w (rng_pos st) mod n),
             MkState (S (rng_pos st)) (faker_pos st) (clock_pos st)
                     (events st) (stdout st)).

(** [random.randint(a, b)], both ends included. *)
Definition randint (a b : Z) : M Z :=
  let* k := randbelow (b - a + 1) in ret (a + k).

(** [random.choice(seq)]; an empty sequence raises [IndexError]. *)
Definition choice {A} (seq : list A) : M A :=
  match seq with
  | [] => raise (IndexError "Cannot choose from an empty sequence")
  | _ :: _ =>
      let* k := randbelow (Z.of_nat (length seq)) in
      match seq !! Z.to_nat k with
      | Some x => ret x
      | None => raise (IndexError "list index out of range")
      end
  end.

(** [random.random()] yields [k / 2^53] with [0 <= k < 2^53]; only
    comparisons with a constant are made on it, so the numerator is kept. *)
Definition random : M Z := randbelow (2 ^ 53).

(** The binary64 constants [0.7] and [0.8] are these multiples of [2^-53]. *)
Definition c_0_7 : Z := 6305039478318694.
Definition c_0_8 : Z := 7205759403792794.

(** One text from Faker ([sentence], [uri_path], [uuid4], [text]). *)
Definition fake_text : M string :=
  fun st => (inr (faker w (faker_pos st)),
             MkState (rng_pos st) (S (faker_pos st)) (clock_pos st)
                     (events st) (stdout st)).

(** [datetime.datetime.now()]. *)
Definition now : M Py.datetime :=
  fun st => (inr (clock w (clock_pos st)),
             MkState (rng_pos st) (faker_pos st) (S (clock_pos st))
                     (events st) (stdout st)).

(** *** The functions of the script *)

Record config := MkConfig {
  mongo_uri : option string;
  db_name : option string;
  coll_name : option string;
  time_field : option string;
  meta_field : option string
}.

Definition load_config : config :=
  {| mongo_uri := environ w !! "MONGODB_URI";
     db_name := environ w !! "DB_NAME";
     coll_name := environ w !! "COLL_NAME";
     time_field := environ w !! "TIME_FIELD";
     meta_field := environ w !! "META_FIELD" |}.

(** The client is returned once the ping has answered; a server selection
    timeout is printed and turned into [None], anything else propagates. *)
Definition get_mongo_client (uri : option string) : M (option unit) :=
  try_except
    (outcome (srv_client (store w) uri);;
     emit (EvClient uri);;
     emit EvPing;;
     outcome (srv_ping (store w));;
     print "MongoDB connection successful!";;
     ret (Some tt))
    (fun e => match e with
              | ServerSelectionTimeoutError _ => print (exn_msg e);; ret None
              | _ => raise e
              end).

Definition ensure_timeseries_collection (coll time_f meta_f : string) : M unit :=
  try_except
    (emit (EvCreateCollection coll time_f meta_f (60 * 60 * 24 * 30));;
     outcome (srv_create_collection (store w) coll);;
     print ("Time-series collection '" +:+ coll +:+ "' created."))
    (fun e => match e with
              | CollectionInvalid _ =>
                  print ("Collection '" +:+ coll
                         +:+ "' already exists or is not a time-series collection.")
              | _ => print ("Error ensuring time-series collection: " +:+ exn_msg e)
              end).

Definition create_index (field : string) : M string :=
  emit (EvCreateIndex field);; lift (srv_create_index (store w) field).

Definition ensure_meta_indexes : M unit :=
  try_except
    (let* idx_app := create_index "meta.app" in
     let* idx_host := create_index "meta.host" in
     let* idx_env := create_index "meta.env" in
     let* idx_level := create_index "level" in
     print ("Ensured indexes: " +:+ idx_app +:+ ", " +:+ idx_host +:+ ", "
            +:+ idx_env +:+ ", " +:+ idx_level))
    (fun e => print ("Error creating meta indexes: " +:+ exn_msg e)).

Definition LEVELS : list string := ["INFO"; "DEBUG"; "WARN"; "ERROR"; "FATAL"].

Definition LOGGERS : list string :=
  [ "com.example.service.UserService";
    "com.example.repository.ProductRepository";
    "com.example.controller.OrderController";
    "org.springframework.web.servlet.DispatcherServlet" ].

Definition THREADS : list string :=
  ["http-nio-8080-exec-1"; "http-nio-8080-exec-2"; "task-scheduler-1"].

Definition METHODS : list string := ["GET"; "POST"; "PUT"; "DELETE"].

Definition STATUSES : list Z := [200; 201; 400; 401; 403; 404; 500; 502].

(** [x in ["ERROR", "FATAL"]]. *)
Definition is_error_level (level : string) : bool :=
  String.eqb level "ERROR" || String.eqb level "FATAL".

Definition build_log_document (app_name host env : string) (timestamp : Py.datetime)
  : M doc :=
  let* log_level := choice LEVELS in
  let* logger_name := choice LOGGERS in
  let* thread_name := choice THREADS in
  let* message := fake_text in
  let* uri := fake_text in
  let* method := choice METHODS in
  let* status := choice STATUSES in
  let* latency := randint 10 2000 in
  let* trace_id := fake_text in
  let* span_id := fake_text in
  let d : doc :=
    <["spanId" := VStr span_id]> (<["traceId" := VStr trace_id]> (
    <["latency_ms" := VInt latency]> (<["status" := VInt status]> (
    <["method" := VStr method]> (<["uri" := VStr uri]> (
    <["message" := VStr message]> (<["thread" := VStr thread_name]> (
    <["logger" := VStr logger_name]> (<["level" := VStr log_level]> (
    <["meta" := VSub (<["env" := env]> (<["host" := host]> (<["app" := app_name]> ∅)))]> (
    <["timestamp" := VTime timestamp]> ∅))))))))))) in
  if is_error_level log_level then
    let* r := random in
    if r <? c_0_7 then
      let* stack := fake_text in ret (<["stack" := VStr stack]> d)
    else ret d
  else ret d.

Inductive time_dist := Uniform | Recent.

(** The parsed command line. *)
Record args := MkArgs {
  count : Z;
  apps : list string;
  hosts : list string;
  envs : option (list string);
  env : option string;
  dist : time_dist
}.

(** [args.envs if args.envs else ([args.env] if args.env else ["dev"])]. *)
Definition resolve_envs (a : args) : list string :=
  match envs a with
  | Some (e :: es) => e :: es
  | _ => match env a with
         | Some e => if Py.truthy e then [e] else ["dev"]
         | None => ["dev"]
         end
  end.

(** The timestamp of one record (lines 152-159). *)
Definition sample_timestamp (d : time_dist) : M Py.datetime :=
  match d with
  | Recent =>
      let* r := random in
      if r <? c_0_8 then
        let* t := now in
        let* s := randint 0 3600 in
        ret (t - Py.timedelta 0 s)
      else
        let* t := now in
        let* days := randint 1 7 in
        let* s := randint 0 86400 in
        ret (t - Py.timedelta days s)
  | Uniform =>
      let* t := now in
      let* days := randint 0 7 in
      let* s := randint 0 86400 in
      ret (t - Py.timedelta days s)
  end.

(** One turn of the loop of [main]. *)
Definition generate_one (a : args) (envs_ : list string) : M doc :=
  let* app_name := choice (apps a) in
  let* host := choice (hosts a) in
  let* env_val := choice envs_ in
  let* timestamp := sample_timestamp (dist a) in
  build_log_document app_name host env_val timestamp.

(** [for i in range(n): ... logs.append(log_doc)], from the list so far. *)
Fixpoint generate_loop (a : args) (envs_ : list string) (n : nat) (logs : list doc)
  : M (list doc) :=
  match n with
  | O => ret logs
  | S n' =>
      let* log_doc := generate_one a envs_ in
      generate_loop a envs_ n' (logs ++ [log_doc])
  end.

Definition generate_logs (a : args) : M (list doc) :=
  generate_loop a (resolve_envs a) (Z.to_nat (count a)) [].

Definition MISSING_CONFIG : string :=
  "Error: Missing one or more MongoDB configuration variables in .env".

Definition main (a : args) : M unit :=
  let cfg := load_config in
  if negb (forallb Py.truthy_opt
             [mongo_uri cfg; db_name cfg; coll_name cfg; time_field cfg; meta_field cfg])
  then print MISSING_CONFIG
  else
    let* client := get_mongo_client (mongo_uri cfg) in
    match client with
    | None => print "Failed to connect to MongoDB. Exiting."
    | Some _ =>
        let* db := lift (check_db_name (db_name cfg)) in
        ensure_timeseries_collection (default "" (coll_name cfg))
          (default "" (time_field cfg)) (default "" (meta_field cfg));;
        let* coll := lift (check_coll_name (coll_name cfg)) in
        ensure_meta_indexes;;
        let* logs := generate_logs a in
        match logs with
        | [] => ret tt
        | _ :: _ =>
            try_except
              (emit (EvInsertMany logs);;
               outcome (srv_insert_many (store w) logs);;
               print ("Inserted " +:+ pretty (length logs) +:+ " logs into "
                      +:+ db +:+ "." +:+ coll))
              (fun e => print ("Error inserting logs: " +:+ exn_msg e))
        end;;
        emit EvClose
    end.

End Program.
End Generator.

(** ** webapp/app.py *)

Module Webapp.
Import Pymongo Run.

Definition PAGE_SIZE : Z := 50.

(** The query string: the pairs in the order they were sent. *)
Abbreviation request := (list (string * string)).

(** [request.args.get(key, default)]: the first value sent under [key]. *)
Fixpoint args_get (req : request) (key default : string) : string :=
  match req with
  | [] => default
  | (k, v) :: rest => if String.eqb k key then v else args_get rest key default
  end.

(** What is handed to the template. *)
Record page_view := MkView {
  results : list doc;
  error : string;
  app : string;
  host : string;
  env : string;
  level : string;
  start : string;
  end_ : string;
  page : Z;
  total : Z;
  total_pages : Z;
  page_size : Z;
  has_prev : bool;
  has_next : bool;
  prev_page : option Z;
  next_page : option Z
}.

Definition parse_datetime_string (dt_str : string) : option Py.datetime :=
  if negb (Py.truthy dt_str) then None
  else match Py.strptime_minute dt_str with
       | Some t => Some t
       | None =>
           match Py.strptime_day dt_str with
           | Some t => Some t
           | None => None
           end
       end.

(** [int(s or 1)]. *)
Definition int_page (s : string) : exn + Z :=
  if Py.truthy s then
    match Py.int_of_str s with
    | Some n => inr n
    | None => inl (ValueError "invalid literal for int() with base 10")
    end
  else inr 1.

(** Lines 104-109: the page asked for, 1 when it cannot be read or is below
    1. [ValueError], the exception caught here, is the only one [int] raises
    on a string. *)
Definition parse_page (req : request) : Z :=
  let page := match int_page (args_get req "page" "1") with
              | inr n => n
              | inl _ => 1
              end in
  if page <? 1 then 1 else page.

(** Lines 112-129. *)
Definition build_match_criteria (level_val : string)
    (start_time end_time : option Py.datetime) (app_val host_val env_val : string)
  : criteria :=
  let mc : criteria := ∅ in
  let mc := if Py.truthy level_val then <["level" := CEq level_val]> mc else mc in
  let mc :=
    if bool_decide (is_Some start_time) || bool_decide (is_Some end_time) then
      let tc : gmap string Py.datetime := ∅ in
      let tc := match start_time with Some t => <["$gte" := t]> tc | None => tc end in
      let tc := match end_time with Some t => <["$lte" := t]> tc | None => tc end in
      <["timestamp" := COps tc]> mc
    else mc in
  let mc := if Py.truthy app_val then <["meta.app" := CEq app_val]> mc else mc in
  let mc := if Py.truthy host_val then <["meta.host" := CEq host_val]> mc else mc in
  let mc := if Py.truthy env_val then <["meta.env" := CEq env_val]> mc else mc in
  mc.

(** Line 138. *)
Definition total_pages_of (total_docs : Z) : Z :=
  if 0 <? total_docs then Py.ceil (Py.true_div total_docs PAGE_SIZE) else 0.

(** Lines 139-140. *)
Definition clamp_page (page total_pages : Z) : Z :=
  if (0 <? total_pages) && (total_pages <? page) then total_pages else page.

(** Line 142. *)
Definition skip_of (page total_pages : Z) : Z :=
  if negb (total_pages =? 0) then (page - 1) * PAGE_SIZE else 0.

(** Lines 145-151. *)
Definition build_pipeline (mc : criteria) (skip : Z) : list stage :=
  (if bool_decide (mc = ∅) then [] else [Match mc])
  ++ [Sort "timestamp" (-1)]
  ++ (if skip =? 0 then [] else [Skip skip])
  ++ [Limit PAGE_SIZE].

(** The template arguments shared by the two returns at the end of
    [search] (lines 161-179 and 182-200). *)
Definition view (res : list doc) (err : string)
    (app_val host_val env_val level_val start_str end_str : string)
    (page total_docs total_pages : Z) : page_view :=
  {| results := res;
     error := err;
     app := app_val;
     host := host_val;
     env := env_val;
     level := level_val;
     start := start_str;
     end_ := end_str;
     page := page;
     total := total_docs;
     total_pages := total_pages;
     page_size := PAGE_SIZE;
     has_prev := (1 <? page) && (0 <? total_pages);
     has_next := (0 <? total_pages) && (page <? total_pages);
     prev_page := if (1 <? page) && (0 <? total_pages) then Some (page - 1) else None;
     next_page := if (0 <? total_pages) && (page <? total_pages)
                  then Some (page + 1) else None |}.

Definition CONNECT_FAILED : string :=
  "Failed to connect to MongoDB. Check connection string and ensure certifi is installed.".

(** The route [/]. *)
Definition home : page_view :=
  MkView [] "" "" "" "" "" "" "" 1 0 0 PAGE_SIZE false false None None.

Section Program.
Context (w : world).

Definition get_mongo_client : M (option unit) :=
  let mongo_uri := environ w !! "MONGODB_URI" in
  try_except
    (outcome (srv_client (store w) mongo_uri);;
     emit (EvClient mongo_uri);;
     emit EvPing;;
     outcome (srv_ping (store w));;
     print "MongoDB connection successful!";;
     ret (Some tt))
    (fun e => match e with
              | ServerSelectionTimeoutError _ => print (exn_msg e);; ret None
              | _ => raise e
              end).

(** The route [/search]. *)
Definition search (req : request) : M page_view :=
  let* client := get_mongo_client in
  match client with
  | None =>
      let* page := lift (int_page (args_get req "page" "1")) in
      ret (MkView [] CONNECT_FAILED
             (args_get req "app" "") (args_get req "host" "")
             (args_get req "env" "") (args_get req "level" "")
             (args_get req "start" "") (args_get req "end" "")
             page 0 0 PAGE_SIZE false false None None)
  | Some _ =>
      let db_name := environ w !! "DB_NAME" in
      let coll_name := environ w !! "COLL_NAME" in
      let* db := lift (check_db_name db_name) in
      let* collection := lift (check_coll_name coll_name) in
      let app_val := args_get req "app" "" in
      let host_val := args_get req "host" "" in
      let env_val := args_get req "env" "" in
      let level_val := args_get req "level" "" in
      let start_time_str := args_get req "start" "" in
      let end_time_str := args_get req "end" "" in
      let start_time := parse_datetime_string start_time_str in
      let end_time := parse_datetime_string end_time_str in
      let page := parse_page req in
      let match_criteria :=
        build_match_criteria level_val start_time end_time app_val host_val env_val in
      let* total_docs :=
        try_except
          (emit (EvCount match_criteria);; lift (srv_count (store w) match_criteria))
          (fun _ => ret 0) in
      let total_pages := total_pages_of total_docs in
      let page := clamp_page page total_pages in
      let skip := skip_of page total_pages in
      let pipeline := build_pipeline match_criteria skip in
      let* fetched :=
        try_except
          (emit (EvAggregate pipeline);;
           let* docs := lift (srv_aggregate (store w) pipeline) in ret (inr docs))
          (fun e => ret (inl e)) in
      match fetched with
      | inl e =>
          print ("Aggregation error: " +:+ exn_msg e);;
          emit EvClose;;
          ret (view [] ("Search failed: " +:+ exn_msg e)
                 app_val host_val env_val level_val start_time_str end_time_str
                 page total_docs total_pages)
      | inr res =>
          emit EvClose;;
          ret (view res ""
                 app_val host_val env_val level_val start_time_str end_time_str
                 page total_docs total_pages)
      end
  end.

End Program.
End Webapp.

(** ** Vocabulary of the properties *)

Module Props.
Import Pymongo Run.

(** Either program, as one operation against the store. *)
Inductive operation :=
  | GeneratorRun (a : Generator.args)
  | SearchRequest (req : Webapp.request).

Definition run (w : world) (op : operation) : M unit :=
  match op with
  | GeneratorRun a => Generator.main w a
  | SearchRequest req => Webapp.search w req;; ret tt
  end.

(** The connection has been acquired: the ping was sent and answered. *)
Definition acquired (w : world) (st : state) : Prop :=
  EvPing ∈ events st /\ srv_ping (store w) = None.

(** The connection has been released: closing it was the last call. *)
Definition released (st : state) : Prop :=
  last (events st) = Some EvClose.

(** The configuration values both programs are said to require. *)
Definition REQUIRED : list string :=
  ["MONGODB_URI"; "DB_NAME"; "COLL_NAME"; "TIME_FIELD"; "META_FIELD"].

(** The configuration values the search handler reads. *)
Definition READ_BY_SEARCH : list string := ["MONGODB_URI"; "DB_NAME"; "COLL_NAME"].

(** The filter parameters of [/search]. *)
Definition FILTERS : list string := ["app"; "host"; "env"; "level"; "start"; "end"].

(** The first value sent under [key], if any. *)
Fixpoint args_first (req : Webapp.request) (key : string) : option string :=
  match req with
  | [] => None
  | (k, v) :: rest => if String.eqb k key then Some v else args_first rest key
  end.

(** The request without the parameter [key]. *)
Fixpoint drop_key (key : string) (req : Webapp.request) : Webapp.request :=
  match req with
  | [] => []
  | (k, v) :: rest =>
      if String.eqb k key then drop_key key rest else (k, v) :: drop_key key rest
  end.

(** The value of a filter parameter as the rendered page shows it again. *)
Definition echo (key : string) (v : Webapp.page_view) : string :=
  if String.eqb key "app" then Webapp.app v
  else if String.eqb key "host" then Webapp.host v
  else if String.eqb key "env" then Webapp.env v
  else if String.eqb key "level" then Webapp.level v
  else if String.eqb key "start" then Webapp.start v
  else if String.eqb key "end" then Webapp.end_ v
  else "".

(** The page with the echoed start or end emptied. *)
Definition blank (key : string) (v : Webapp.page_view) : Webapp.page_view :=
  Webapp.MkView (Webapp.results v) (Webapp.error v) (Webapp.app v) (Webapp.host v)
    (Webapp.env v) (Webapp.level v)
    (if String.eqb key "start" then "" else Webapp.start v)
    (if String.eqb key "end" then "" else Webapp.end_ v)
    (Webapp.page v) (Webapp.total v) (Webapp.total_pages v) (Webapp.page_size v)
    (Webapp.has_prev v) (Webapp.has_next v) (Webapp.prev_page v) (Webapp.next_page v).

Definition map_result {A B} (f : A -> B) (r : (exn + A) * state) : (exn + B) * state :=
  match r with
  | (inr a, st) => (inr (f a), st)
  | (inl e, st) => (inl e, st)
  end.

(** What the specification asks of every generated record. *)
Definition record_ok (a : Generator.args) (d : doc) : Prop :=
  (exists lv, d !! "level" = Some (VStr lv) /\ lv ∈ Generator.LEVELS
              /\ (is_Some (d !! "stack") -> lv = "ERROR" \/ lv = "FATAL"))
  /\ (exists ts, d !! "timestamp" = Some (VTime ts))
  /\ (exists m app_name host env_val,
        d !! "meta" = Some (VSub m)
        /\ m !! "app" = Some app_name /\ app_name ∈ Generator.apps a
        /\ m !! "host" = Some host /\ host ∈ Generator.hosts a
        /\ m !! "env" = Some env_val /\ env_val ∈ Generator.resolve_envs a).

(** The timestamp stored in a record. *)
Definition timestamp_of (d : doc) : option Py.datetime :=
  match d !! "timestamp" with
  | Some (VTime t) => Some t
  | _ => None
  end.

Definition seven_days : Z := Py.timedelta 7 0.
Definition eight_days : Z := Py.timedelta 7 86400.

(** The query the handler builds from a request (lines 93-101 and 111-129). *)
Definition criteria_of (req : Webapp.request) : criteria :=
  Webapp.build_match_criteria (Webapp.args_get req "level" "")
    (Webapp.parse_datetime_string (Webapp.args_get req "start" ""))
    (Webapp.parse_datetime_string (Webapp.args_get req "end" ""))
    (Webapp.args_get req "app" "") (Webapp.args_get req "host" "")
    (Webapp.args_get req "env" "").

(** The fields of a record that the queries of the handler name. *)
Definition QUERIED : list string :=
  ["level"; "timestamp"; "meta.app"; "meta.host"; "meta.env"].

(** The field of a record that a filter parameter is compared with. *)
Definition field_of (k : string) : string :=
  if String.eqb k "app" then "meta.app"
  else if String.eqb k "host" then "meta.host"
  else if String.eqb k "env" then "meta.env"
  else if String.eqb k "level" then "level"
  else "timestamp".

(** The comparison a time bound is sent with. *)
Definition operator_of (k : string) : option string :=
  if String.eqb k "start" then Some "$gte"
  else if String.eqb k "end" then Some "$lte"
  else None.

(** The query [c] holds nothing on behalf of the filter [k]: no entry for
    the field of [app], [host], [env] or [level]; for [start] and [end], no
    entry for the timestamp or one without the operator of that bound. *)
Definition no_constraint (k : string) (c : criteria) : Prop :=
  match operator_of k with
  | None => c !! field_of k = None
  | Some op =>
      match c !! "timestamp" with
      | None => True
      | Some (COps ops) => ops !! op = None
      | Some (CEq _) => False
      end
  end.

(** [d'] is [d] with anything at all, or nothing, in the field the filter
    [k] is compared with; for [start] both have a time and that of [d'] is
    the earlier, for [end] the later. *)
Definition free_in (k : string) (d d' : doc) : Prop :=
  (forall f, f ∈ QUERIED -> f <> field_of k -> get_path d' f = get_path d f)
  /\ (k = "start" \/ k = "end" ->
      exists t t', get_path d "timestamp" = Some (VTime t)
                   /\ get_path d' "timestamp" = Some (VTime t')
                   /\ if String.eqb k "start" then t' <= t else t <= t').

(** The value a run returned, or [dflt] when it raised. *)
Definition returned {A} (dflt : A) (r : (exn + A) * state) : A :=
  match r.1 with
  | inr a => a
  | inl _ => dflt
  end.

(** A computation that leaves the event log and the output alone. *)
Definition quiet {A} (m : M A) : Prop :=
  forall st a st', m st = (inr a, st') -> events st' = events st /\ stdout st' = stdout st.

(** A computation that always returns. *)
Definition total {A} (m : M A) : Prop := forall st, exists a st', m st = (inr a, st').

Definition is_index_event (e : event) : Prop :=
  match e with EvCreateIndex _ => True | _ => False end.

End Props.

(** ** Concrete worlds *)

Module Sample.
Import Pymongo Run.

(** A store that answers every call; it holds 125 matching documents. *)
Definition answering : server :=
  MkServer (fun _ => None) None (fun _ => None) (fun f => inr (f +:+ "_1"))
           (fun _ => inr 125) (fun _ => inr []) (fun _ => None).

(** The same store with a failing count. *)
Definition count_fails : server :=
  MkServer (fun _ => None) None (fun _ => None) (fun f => inr (f +:+ "_1"))
           (fun _ => inl (OperationFailure "count failed"))
           (fun _ => inr []) (fun _ => None).

(** A store that cannot be reached. *)
Definition unreachable : server :=
  MkServer (fun _ => None) (Some (ServerSelectionTimeoutError "timed out"))
           (fun _ => None) (fun f => inr (f +:+ "_1"))
           (fun _ => inr 0) (fun _ => inr []) (fun _ => None).

Definition env_search : gmap string string :=
  <["MONGODB_URI" := "mongodb://db.example"]> (<["DB_NAME" := "logs"]> (
  <["COLL_NAME" := "app_logs"]> ∅)).

Definition env_full : gmap string string :=
  <["TIME_FIELD" := "timestamp"]> (<["META_FIELD" := "meta"]> env_search).

Definition env_no_db : gmap string string :=
  <["MONGODB_URI" := "mongodb://db.example"]> (<["COLL_NAME" := "app_logs"]> ∅).

Definition noon : Py.datetime := 63850161600000000.

(** Draws under which a one-record uniform batch gets 7 days and 86400
    seconds: the fourth and fifth draws of the run are those of [randint]. *)
Definition late_draws (n : nat) : Z :=
  match n with
  | 3%nat => 7
  | 4%nat => 86400
  | _ => 0
  end.

Definition mk (e : gmap string string) (s : server) : world :=
  MkWorld e late_draws (fun _ => "lorem") (fun _ => noon) s.

Definition one_record : Generator.args :=
  Generator.MkArgs 1 ["my-app"] ["host-1"] None None Generator.Uniform.

End Sample.

(** ** Vocabulary of the further properties *)

Module Calls.
Import Pymongo Run.










End Calls.

(** ** Further concrete worlds *)

Module Faulty.
Import Pymongo Run.




Definition mk (e : gmap string string) (s : server) (draws : nat -> Z) : world :=
  MkWorld e draws (fun _ => "lorem") (fun _ => Sample.noon) s.

Definition three_recent : Generator.args :=
  Generator.MkArgs 3 ["svc-a"; "svc-b"] ["host-1"] None None Generator.Recent.

Definition no_records : Generator.args :=
  Generator.MkArgs 0 ["svc-a"] ["host-1"] None None Generator.Uniform.

End Faulty.

(** * Properties *)

Import Pymongo Run Props.

(** ** The page count in binary64 arithmetic *)

(** The exponent chosen for a quotient is not above its binary logarithm. *)
Lemma pow2_le_ratio_floor (a b : Z) :
  0 < a -> 0 < b -> Py.pow2_le_ratio (Py.floor_log2_ratio a b) a b = true.
Proof.
  intros Ha Hb. unfold Py.floor_log2_ratio.
  destruct (Py.pow2_le_ratio (Z.log2 a - Z.log2 b) a b) eqn:E; [exact E|].
  pose proof (Z.log2_spec a Ha) as [La _].
  pose proof (Z.log2_spec b Hb) as [_ Lb].
  pose proof (Z.log2_nonneg a) as Na.
  pose proof (Z.log2_nonneg b) as Nb.
  unfold Py.pow2_le_ratio.
  destruct (Z.leb_spec 0 (Z.log2 a - Z.log2 b - 1)) as [Hd|Hd].
  - apply Z.leb_le.
    replace (Z.log2 a) with (Z.succ (Z.log2 b) + (Z.log2 a - Z.log2 b - 1)) in La by lia.
    rewrite Z.pow_add_r in La by lia.
    assert (0 < 2 ^ (Z.log2 a - Z.log2 b - 1)) by (apply Z.pow_pos_nonneg; lia).
    nia.
  - apply Z.leb_le.
    replace (- (Z.log2 a - Z.log2 b - 1)) with (Z.succ (Z.log2 b) - Z.log2 a) by lia.
    assert (2 ^ Z.succ (Z.log2 b) = 2 ^ Z.log2 a * 2 ^ (Z.succ (Z.log2 b) - Z.log2 a)) as Hp.
    { rewrite <- Z.pow_add_r by lia. f_equal. lia. }
    assert (0 < 2 ^ (Z.succ (Z.log2 b) - Z.log2 a)) by (apply Z.pow_pos_nonneg; lia).
    nia.
Qed.

Lemma floor_log2_ratio_le (t k : Z) :
  0 < t -> 0 <= k -> t < 50 * 2 ^ k -> Py.floor_log2_ratio t 50 < k.
Proof.
  intros Ht Hk Hlt.
  pose proof (pow2_le_ratio_floor t 50 Ht ltac:(lia)) as H.
  unfold Py.pow2_le_ratio in H.
  destruct (Z.leb_spec 0 (Py.floor_log2_ratio t 50)) as [Hn|Hn]; [|lia].
  apply Z.leb_le in H.
  destruct (Z.lt_ge_cases (Py.floor_log2_ratio t 50) k) as [|Hge]; [done|].
  pose proof (Z.pow_le_mono_r 2 k (Py.floor_log2_ratio t 50) ltac:(lia) Hge).
  lia.
Qed.

Lemma round_half_even_cases (n d : Z) :
  0 < d ->
  exists m0 v, n = d * m0 + v /\ 0 <= v < d /\
    (Py.round_half_even n d = m0 \/ Py.round_half_even n d = m0 + 1 /\ d <= 2 * v) /\
    (d < 2 * v -> Py.round_half_even n d = m0 + 1).
Proof.
  intros Hd. exists (n / d), (n mod d).
  pose proof (Z.div_mod n d ltac:(lia)).
  pose proof (Z.mod_pos_bound n d Hd).
  unfold Py.round_half_even.
  repeat split; try lia.
  - destruct (Z.ltb_spec d (2 * (n mod d))); simpl; [right; lia|].
    destruct (Z.eqb_spec d (2 * (n mod d))); simpl; [|left; done].
    destruct (Z.odd (n / d)); [right; lia | left; done].
  - intros Hlt. destruct (Z.ltb_spec d (2 * (n mod d))); simpl; [done|lia].
Qed.

(** Up to [50 * 2^48] the rounded quotient has the ceiling of the exact one:
    the spacing of binary64 numbers there is at most [1/32], less than the
    distance [1/50] of a non-integral quotient from the integer below it. *)
Lemma ceil_true_div_exact (t : Z) :
  0 < t <= 50 * 2 ^ 48 ->
  Py.ceil (Py.true_div t 50) = (t + 49) / 50.
Proof.
  intros [Ht Hle].
  assert (Hk : Py.floor_log2_ratio t 50 < 49).
  { apply floor_log2_ratio_le; [lia | lia |].
    replace (2 ^ 49) with (2 * 2 ^ 48) by reflexivity. lia. }
  assert (Hk' : t mod 50 <> 0 -> Py.floor_log2_ratio t 50 < 48).
  { intros Hr. apply floor_log2_ratio_le; [lia | lia |].
    destruct (Z.eq_dec t (50 * 2 ^ 48)) as [->|]; [|lia].
    exfalso. apply Hr. rewrite Z.mul_comm. apply Z.mod_mul. lia. }
  unfold Py.true_div, Py.ceil. cbn [Py.expo Py.mant].
  set (k := Py.floor_log2_ratio t 50) in *.
  destruct (Z.leb_spec 0 (k - 52)) as [|_]; [lia|].
  set (s := - (k - 52)).
  assert (Hs : 4 <= s) by (subst s; lia).
  assert (HP : 2 ^ 4 <= 2 ^ s) by (apply Z.pow_le_mono_r; lia).
  assert (HP' : t mod 50 <> 0 -> 2 ^ 5 <= 2 ^ s).
  { intros Hr. apply Z.pow_le_mono_r; [lia|]. specialize (Hk' Hr). subst s. lia. }
  change (2 ^ 4) with 16 in HP. change (2 ^ 5) with 32 in HP'.
  generalize dependent (2 ^ s). intros P HP HP'.
  destruct (round_half_even_cases (t * P) 50 ltac:(lia)) as (m0 & v & HN & Hv & Hm & Hup).
  pose proof (Z.div_mod t 50 ltac:(lia)) as Ht50.
  pose proof (Z.mod_pos_bound t 50 ltac:(lia)) as Hr.
  set (q := t / 50) in *. set (r := t mod 50) in *.
  destruct (Z.eq_dec r 0) as [Hr0|Hr0].
  - assert (m0 = q * P /\ v = 0) as [-> ->] by nia.
    assert (Py.round_half_even (t * P) 50 = q * P) as -> by (destruct Hm; lia).
    replace (- (q * P)) with ((- q) * P) by lia.
    rewrite Z.div_mul by lia. rewrite Z.opp_involutive.
    apply Z.div_unique with (r := 49); lia.
  - specialize (HP' Hr0).
    set (m := Py.round_half_even (t * P) 50) in *.
    assert (Hlo : q * P < m).
    { destruct (Z.lt_ge_cases (q * P) m0); [destruct Hm; lia|].
      assert (50 < 2 * v) by nia. specialize (Hup ltac:(lia)). nia. }
    assert (Hhi : m <= (q + 1) * P) by (destruct Hm; nia).
    assert ((- m) / P = - (q + 1)) as ->.
    { symmetry. apply Z.div_unique with (r := (q + 1) * P - m); lia. }
    rewrite Z.opp_involutive.
    apply Z.div_unique with (r := r - 1); lia.
Qed.

Lemma total_pages_of_exact (t : Z) :
  0 < t <= 50 * 2 ^ 48 -> Webapp.total_pages_of t = (t + 49) / 50.
Proof.
  intros Ht. unfold Webapp.total_pages_of, Webapp.PAGE_SIZE.
  destruct (Z.ltb_spec 0 t); [|lia]. by apply ceil_true_div_exact.
Qed.

(** ** Running a computation *)

Section Running.
Context {A B : Type}.

Lemma bind_inr (m : M A) (k : A -> M B) st b st' :
  bind m k st = (inr b, st') ->
  exists a st1, m st = (inr a, st1) /\ k a st1 = (inr b, st').
Proof.
  unfold bind. destruct (m st) as [[e|a] st1]; [discriminate|]. eauto.
Qed.

Lemma ret_inr (a b : A) st st' : ret a st = (inr b, st') -> a = b /\ st = st'.
Proof. unfold ret. intros [= -> ->]. done. Qed.

End Running.

Lemma lift_inr {A} (r : exn + A) st a st' :
  lift r st = (inr a, st') -> r = inr a /\ st' = st.
Proof. destruct r; [discriminate|]. by intros [= -> ->]. Qed.

Ltac inv_run :=
  repeat match goal with
  | H : bind _ _ _ = (inr _, _) |- _ =>
      let a := fresh "a" in let s := fresh "s" in
      let H1 := fresh "Hrun" in let H2 := fresh "Hrun" in
      apply bind_inr in H as (a & s & H1 & H2)
  | H : ret _ _ = (inr _, _) |- _ => apply ret_inr in H as [? ?]; subst
  | H : raise _ _ = (inr _, _) |- _ => discriminate H
  end.

Ltac in_list :=
  unfold FILTERS, REQUIRED, READ_BY_SEARCH;
  repeat first [apply list_elem_of_here | apply list_elem_of_further].

(** A closed decidable statement, settled by evaluating its decision. *)
Ltac decided := apply (bool_decide_unpack _); vm_compute; exact I.

Lemma returned_run {A} (dflt : A) (r : (exn + A) * state) (a : A) (st : state) :
  r = (inr a, st) -> returned dflt r = a /\ r.2 = st.
Proof. by intros ->. Qed.

Lemma quiet_ret {A} (a : A) : quiet (ret a).
Proof. intros st b st' H. inv_run. done. Qed.

Lemma quiet_bind {A B} (m : M A) (k : A -> M B) :
  quiet m -> (forall a, quiet (k a)) -> quiet (bind m k).
Proof.
  intros Hm Hk st b st' H. inv_run.
  destruct (Hm _ _ _ Hrun) as [<- <-]. eapply Hk; eauto.
Qed.

Lemma total_ret {A} (a : A) : total (ret a).
Proof. intros st. unfold ret. eauto. Qed.

Lemma total_bind {A B} (m : M A) (k : A -> M B) :
  total m -> (forall a, total (k a)) -> total (bind m k).
Proof.
  intros Hm Hk st. destruct (Hm st) as (a & st1 & E).
  destruct (Hk a st1) as (b & st2 & E'). unfold bind. rewrite E. eauto.
Qed.

(** ** The random source, Faker and the clock *)

Section Oracles.
Context (w : world).
Import Generator.

Lemma randbelow_range n st k st' :
  0 < n -> randbelow w n st = (inr k, st') -> 0 <= k < n.
Proof.
  intros Hn [= <- _]. apply Z.mod_pos_bound. done.
Qed.

Lemma quiet_randbelow n : quiet (randbelow w n).
Proof. intros st a st' [= _ <-]. done. Qed.

Lemma total_randbelow n : total (randbelow w n).
Proof. intros st. unfold randbelow. eauto. Qed.

Lemma randint_range a b st k st' :
  a <= b -> randint w a b st = (inr k, st') -> a <= k <= b.
Proof.
  intros Hab H. unfold randint in H. inv_run.
  apply randbelow_range in Hrun; lia.
Qed.

Lemma quiet_randint a b : quiet (randint w a b).
Proof. apply quiet_bind; [apply quiet_randbelow | intros; apply quiet_ret]. Qed.

Lemma total_randint a b : total (randint w a b).
Proof. apply total_bind; [apply total_randbelow | intros; apply total_ret]. Qed.

Lemma choice_elem {A} (seq : list A) st x st' :
  choice w seq st = (inr x, st') -> x ∈ seq.
Proof.
  destruct seq as [|y ys]; [discriminate|].
  unfold choice. intros H. inv_run.
  destruct ((y :: ys) !! Z.to_nat a) as [z|] eqn:E; [|discriminate].
  inv_run. eapply list_elem_of_lookup_2; eauto.
Qed.

Lemma quiet_choice {A} (seq : list A) : quiet (choice w seq).
Proof.
  destruct seq as [|y ys]; [intros ? ? ? [=]|].
  apply quiet_bind; [apply quiet_randbelow|].
  intros k. destruct (_ !! _); [apply quiet_ret | intros ? ? ? [=]].
Qed.

(** A choice from a non-empty list returns, and uses one draw. *)
Lemma choice_total {A} (seq : list A) st :
  seq <> [] ->
  exists x, choice w seq st
            = (inr x, MkState (S (rng_pos st)) (faker_pos st) (clock_pos st)
                              (events st) (stdout st)).
Proof.
  destruct seq as [|y ys]; [done|]. intros _.
  unfold choice, bind, randbelow.
  set (k := rng w (rng_pos st) `mod` Z.of_nat (length (y :: ys))).
  assert (0 <= k < Z.of_nat (length (y :: ys))) as Hk.
  { apply Z.mod_pos_bound. simpl. lia. }
  destruct (lookup_lt_is_Some_2 (y :: ys) (Z.to_nat k)) as [x Hx]; [lia|].
  rewrite Hx. eauto.
Qed.

Lemma total_choice {A} (seq : list A) : seq <> [] -> total (choice w seq).
Proof. intros H st. destruct (choice_total seq st H) as [x E]. eauto. Qed.

Lemma quiet_fake_text : quiet (fake_text w).
Proof. intros st a st' [= _ <-]. done. Qed.

Lemma total_fake_text : total (fake_text w).
Proof. intros st. unfold fake_text. eauto. Qed.

Lemma quiet_now : quiet (now w).
Proof. intros st a st' [= _ <-]. done. Qed.

Lemma total_now : total (now w).
Proof. intros st. unfold now. eauto. Qed.

End Oracles.

(** ** The records of the generator *)

Section Records.
Context (w : world).
Import Generator.

Lemma is_error_level_true lv : is_error_level lv = true -> lv = "ERROR" \/ lv = "FATAL".
Proof.
  unfold is_error_level. intros H. apply orb_true_iff in H as [H|H];
    apply String.eqb_eq in H; auto.
Qed.

Lemma build_log_document_fields app_name host env ts st d st' :
  build_log_document w app_name host env ts st = (inr d, st') ->
  (exists lv, d !! "level" = Some (VStr lv) /\ lv ∈ LEVELS
              /\ (is_Some (d !! "stack") -> lv = "ERROR" \/ lv = "FATAL"))
  /\ d !! "timestamp" = Some (VTime ts)
  /\ d !! "meta" = Some (VSub (<["env" := env]> (<["host" := host]> (<["app" := app_name]> ∅)))).
Proof.
  unfold build_log_document. intros H. inv_run.
  rename a into lv. apply choice_elem in Hrun.
  destruct (is_error_level lv) eqn:El.
  - inv_run.
    match goal with H : (if ?c then _ else _) _ = _ |- _ => destruct c end; inv_run.
    + split; [|split; reflexivity].
      exists lv. split; [reflexivity|]. split; [done|].
      intros _. by apply is_error_level_true.
    + split; [|split; reflexivity].
      exists lv. split; [reflexivity|]. split; [done|].
      intros _. by apply is_error_level_true.
  - inv_run. split; [|split; reflexivity].
    exists lv. split; [reflexivity|]. split; [done|].
    intros [x Hx]. discriminate Hx.
Qed.

Lemma quiet_build_log_document app_name host env ts :
  quiet (build_log_document w app_name host env ts).
Proof.
  unfold build_log_document.
  repeat (apply quiet_bind;
          [first [apply quiet_choice | apply quiet_fake_text | apply quiet_randint] | intros ?]).
  destruct (is_error_level _); [|apply quiet_ret].
  apply quiet_bind; [apply quiet_randbelow|]. intros r.
  destruct (r <? c_0_7); [|apply quiet_ret].
  apply quiet_bind; [apply quiet_fake_text | intros; apply quiet_ret].
Qed.

Lemma total_build_log_document app_name host env ts :
  total (build_log_document w app_name host env ts).
Proof.
  unfold build_log_document.
  repeat (apply total_bind;
          [first [apply total_choice; discriminate | apply total_fake_text
                 | apply total_randint] | intros ?]).
  destruct (is_error_level _); [|apply total_ret].
  apply total_bind; [apply total_randbelow|]. intros r.
  destruct (r <? c_0_7); [|apply total_ret].
  apply total_bind; [apply total_fake_text | intros; apply total_ret].
Qed.

Lemma quiet_sample_timestamp d : quiet (sample_timestamp w d).
Proof.
  destruct d; unfold sample_timestamp.
  - repeat (apply quiet_bind; [first [apply quiet_now | apply quiet_randint] | intros ?]).
    apply quiet_ret.
  - apply quiet_bind; [apply quiet_randbelow|]. intros r.
    destruct (r <? c_0_8);
      repeat (apply quiet_bind; [first [apply quiet_now | apply quiet_randint] | intros ?]);
      apply quiet_ret.
Qed.

Lemma total_sample_timestamp d : total (sample_timestamp w d).
Proof.
  destruct d; unfold sample_timestamp.
  - repeat (apply total_bind; [first [apply total_now | apply total_randint] | intros ?]).
    apply total_ret.
  - apply total_bind; [apply total_randbelow|]. intros r.
    destruct (r <? c_0_8);
      repeat (apply total_bind; [first [apply total_now | apply total_randint] | intros ?]);
      apply total_ret.
Qed.

(** What the uniform branch can return: up to eight days back. *)
Lemma sample_timestamp_uniform_range st t st' :
  sample_timestamp w Uniform st = (inr t, st') ->
  clock w (clock_pos st) - eight_days <= t <= clock w (clock_pos st).
Proof.
  unfold sample_timestamp. intros H. inv_run.
  repeat match goal with
         | H : randint _ _ _ _ = _ |- _ => apply randint_range in H; [|lia]
         | H : now _ _ = _ |- _ => injection H as <- <-
         end.
  unfold eight_days, Py.timedelta, Py.sec_per_day, Py.usec_per_sec. lia.
Qed.

Lemma resolve_envs_nonempty a : resolve_envs a <> [].
Proof.
  unfold resolve_envs. destruct (envs a) as [[|? ?]|]; try done;
    destruct (env a) as [e|]; try done; destruct (Py.truthy e); done.
Qed.

Lemma generate_one_ok a st d st' :
  generate_one w a (resolve_envs a) st = (inr d, st') -> record_ok a d.
Proof.
  unfold generate_one. intros H. inv_run.
  repeat match goal with
         | H : choice _ _ _ = _ |- _ => apply choice_elem in H
         | H : build_log_document _ _ _ _ _ _ = _ |- _ =>
             apply build_log_document_fields in H as (Hlv & Hts & Hmeta)
         end.
  split; [done|]. split; [eauto|].
  eexists _, _, _, _. split; [exact Hmeta|].
  repeat split; first [reflexivity | assumption].
Qed.

Lemma quiet_generate_one a es : quiet (generate_one w a es).
Proof.
  unfold generate_one.
  do 4 (apply quiet_bind; [first [apply quiet_choice | apply quiet_sample_timestamp] | intros ?]).
  apply quiet_build_log_document.
Qed.

Lemma total_generate_one a :
  apps a <> [] -> hosts a <> [] -> total (generate_one w a (resolve_envs a)).
Proof.
  intros Ha Hh. unfold generate_one.
  do 4 (apply total_bind;
          [first [apply total_choice; first [done | apply resolve_envs_nonempty]
                 | apply total_sample_timestamp] | intros ?]).
  apply total_build_log_document.
Qed.

Lemma generate_loop_ok a n : forall logs st out st',
  generate_loop w a (resolve_envs a) n logs st = (inr out, st') ->
  Forall (record_ok a) logs ->
  Forall (record_ok a) out /\ length out = (length logs + n)%nat
  /\ events st' = events st /\ stdout st' = stdout st.
Proof.
  induction n as [|n IH]; intros logs st out st' H Hlogs; simpl in H.
  - inv_run. rewrite Nat.add_0_r. done.
  - inv_run.
    pose proof (generate_one_ok _ _ _ _ Hrun) as Hd.
    destruct (quiet_generate_one _ _ _ _ _ Hrun) as [<- <-].
    apply IH in Hrun0 as (? & Hlen & ? & ?).
    + rewrite length_app in Hlen. simpl in Hlen. repeat split; try done. lia.
    + apply Forall_app. split; [done|]. by constructor.
Qed.

Lemma total_generate_loop a n :
  apps a <> [] -> hosts a <> [] ->
  forall logs, total (generate_loop w a (resolve_envs a) n logs).
Proof.
  intros Ha Hh. induction n as [|n IH]; intros logs; simpl.
  - apply total_ret.
  - apply total_bind; [by apply total_generate_one | intros; apply IH].
Qed.

End Records.

(** ** The calls of the generator *)

Section Bootstrap.
Context (w : world).
Import Generator.

Lemma ensure_timeseries_collection_run c t m st :
  exists out, ensure_timeseries_collection w c t m st
    = (inr tt, MkState (rng_pos st) (faker_pos st) (clock_pos st)
                       (events st ++ [EvCreateCollection c t m 2592000])
                       (stdout st ++ [out])).
Proof.
  unfold ensure_timeseries_collection, try_except, bind, emit, outcome, print, raise, ret.
  destruct (srv_create_collection (store w) c) as [[]|]; simpl; eauto.
Qed.

Lemma ensure_meta_indexes_run st :
  exists idx out, Forall is_index_event idx /\
    ensure_meta_indexes w st
    = (inr tt, MkState (rng_pos st) (faker_pos st) (clock_pos st)
                       (events st ++ idx) (stdout st ++ [out])).
Proof.
  unfold ensure_meta_indexes, create_index, try_except, bind, emit, lift, print, raise, ret.
  simpl.
  destruct (srv_create_index (store w) "meta.app"); simpl;
    [eexists [_], _; split; [|reflexivity]; repeat constructor|].
  destruct (srv_create_index (store w) "meta.host"); simpl;
    [eexists [_; _], _; split; [|rewrite <- app_assoc; reflexivity]; repeat constructor|].
  destruct (srv_create_index (store w) "meta.env"); simpl;
    [eexists [_; _; _], _; split; [|rewrite <- !app_assoc; reflexivity]; repeat constructor|].
  destruct (srv_create_index (store w) "level"); simpl;
    eexists [_; _; _; _], _; (split; [|rewrite <- !app_assoc; reflexivity]);
    repeat constructor.
Qed.

End Bootstrap.

Section Connection.
Context (w : world).

Lemma generator_client_inr uri st c s1 :
  Generator.get_mongo_client w uri st = (inr c, s1) ->
  match c with
  | Some _ => srv_ping (store w) = None /\ events s1 = events st ++ [EvClient uri; EvPing]
  | None => srv_ping (store w) <> None \/ events s1 = events st
  end.
Proof.
  unfold Generator.get_mongo_client, try_except, bind, emit, outcome, print, raise, ret.
  destruct (srv_client (store w) uri) as [[]|]; simpl; try discriminate.
  - intros [= <- <-]. by right.
  - destruct (srv_ping (store w)) as [[]|]; simpl; try discriminate.
    + intros [= <- <-]. by left.
    + intros [= <- <-]. split; [done|]. by rewrite <- app_assoc.
Qed.

Lemma webapp_client_inr st c s1 :
  Webapp.get_mongo_client w st = (inr c, s1) ->
  match c with
  | Some _ => srv_ping (store w) = None
              /\ events s1 = events st ++ [EvClient (environ w !! "MONGODB_URI"); EvPing]
  | None => srv_ping (store w) <> None \/ events s1 = events st
  end.
Proof. apply generator_client_inr. Qed.

Lemma insert_many_run logs (line : string) st :
  exists out,
    try_except
      (emit (EvInsertMany logs);; outcome (srv_insert_many (store w) logs);; print line)
      (fun e => print ("Error inserting logs: " +:+ exn_msg e)) st
    = (inr tt, MkState (rng_pos st) (faker_pos st) (clock_pos st)
                       (events st ++ [EvInsertMany logs]) (stdout st ++ [out])).
Proof.
  unfold try_except, bind, emit, outcome, print, raise, ret.
  destruct (srv_insert_many (store w) logs); simpl; eauto.
Qed.

Lemma main_released a st :
  Generator.main w a init = (inr tt, st) -> acquired w st -> released st.
Proof.
  unfold Generator.main. destruct (negb _).
  { intros [= <-] [Hin _]. simpl in Hin. by apply elem_of_nil in Hin. }
  intros H. inv_run. apply generator_client_inr in Hrun.
  destruct a0 as [[]|].
  - inv_run. intros _. unfold released.
    match goal with
    | H : emit EvClose _ = (_, st) |- _ => unfold emit in H; injection H as <-
    end. simpl. apply last_snoc.
  - intros [Hin Hping]. destruct Hrun as [Hne|Hev]; [done|].
    match goal with
    | H : print _ _ = (_, st) |- _ => unfold print in H; injection H as <-
    end. simpl in *. rewrite Hev in Hin. by apply elem_of_nil in Hin.
Qed.

Lemma search_released req v st :
  Webapp.search w req init = (inr v, st) -> acquired w st -> released st.
Proof.
  unfold Webapp.search. intros H. inv_run. apply webapp_client_inr in Hrun.
  destruct a as [[]|].
  - inv_run. intros _. unfold released.
    match goal with
    | H : match ?x with inl _ => _ | inr _ => _ end _ = _ |- _ => destruct x
    end; inv_run;
      match goal with
      | H : emit EvClose _ = (_, _) |- _ => unfold emit in H; injection H as _ <-
      end; simpl; apply last_snoc.
  - inv_run. intros [Hin Hping]. destruct Hrun as [Hne|Hev]; [done|].
    match goal with
    | H : lift ?x _ = _ |- _ => unfold lift in H; destruct x; inv_run
    end.
    rewrite Hev in Hin. by apply elem_of_nil in Hin.
Qed.

End Connection.

(** The calls a complete run of the generator makes, in order: the
    connection, the collection, the indexes, one insert of the generated
    batch unless it is empty, and the close. *)
Lemma main_calls (w : world) (a : Generator.args) (st : state) :
  Generator.main w a init = (inr tt, st) -> acquired w st ->
  exists uri coll tf mf idx logs s s',
    Forall is_index_event idx
    /\ Generator.generate_logs w a s = (inr logs, s')
    /\ events st
       = [EvClient uri; EvPing; EvCreateCollection coll tf mf 2592000] ++ idx
         ++ match logs with [] => [] | _ :: _ => [EvInsertMany logs] end
         ++ [EvClose].
Proof.
  unfold Generator.main. destruct (negb _).
  { intros [= <-] [Hin _]. simpl in Hin. by apply elem_of_nil in Hin. }
  intros H Hacq. inv_run.
  match goal with
  | H : Generator.get_mongo_client _ _ _ = _ |- _ =>
      apply generator_client_inr in H; rename H into Hclient
  end.
  match goal with
  | H : match ?c with Some _ => _ | None => _ end _ = _ |- _ => destruct c as [[]|]
  end.
  2: { destruct Hacq as [Hin Hping]. destruct Hclient as [Hne|Hev]; [done|].
       match goal with
       | H : print _ _ = (_, st) |- _ => unfold print in H; injection H as <-
       end. simpl in *. rewrite Hev in Hin. by apply elem_of_nil in Hin. }
  destruct Hclient as [_ Hev]. inv_run.
  repeat match goal with
         | H : lift _ _ = (inr _, _) |- _ => apply lift_inr in H as [? ->]
         end.
  match goal with
  | H : Generator.ensure_timeseries_collection _ ?c ?t ?m ?s0 = (_, ?s1) |- _ =>
      destruct (ensure_timeseries_collection_run w c t m s0) as [out1 E1];
      rewrite E1 in H; injection H as <-; clear E1
  end.
  match goal with
  | H : Generator.ensure_meta_indexes _ ?s0 = (_, ?s1) |- _ =>
      destruct (ensure_meta_indexes_run w s0) as (idx & out2 & Hidx & E2);
      rewrite E2 in H; injection H as <-; clear E2
  end.
  match goal with
  | H : Generator.generate_logs _ _ ?s0 = (inr ?logs, ?s1) |- _ =>
      pose proof H as Hgen;
      apply generate_loop_ok in H as (_ & _ & Hevs & _); [|constructor]
  end.
  match goal with
  | H : emit EvClose _ = (_, st) |- _ => unfold emit in H; injection H as <-
  end.
  match goal with
  | H : match ?logs with [] => _ | _ :: _ => _ end _ = _ |- _ =>
      destruct logs as [|d ds]
  end.
  - inv_run. subst. do 8 eexists. split; [exact Hidx|]. split; [exact Hgen|].
    simpl. rewrite Hevs. simpl. rewrite Hev. simpl. reflexivity.
  - match goal with
    | H : try_except _ _ ?s0 = _ |- _ =>
        unfold pretty in H;
        edestruct (insert_many_run w (d :: ds)) as [out3 E3];
        rewrite E3 in H; injection H as <-; clear E3
    end.
    subst. do 8 eexists. split; [exact Hidx|]. split; [exact Hgen|].
    simpl. rewrite Hevs. simpl. rewrite Hev. simpl.
    rewrite <- !app_assoc. reflexivity.
Qed.

(** The batch a run of the generator inserts is a batch of well-formed
    records. *)
Lemma main_inserts_generated_records (w : world) (a : Generator.args) st docs :
  Generator.main w a init = (inr tt, st) -> acquired w st ->
  EvInsertMany docs ∈ events st -> Forall (record_ok a) docs.
Proof.
  intros Hrun Hacq Hin.
  destruct (main_calls w a st Hrun Hacq)
    as (uri & coll & tf & mf & idx & logs & s & s' & Hidx & Hgen & Hev).
  rewrite Hev in Hin. clear Hev.
  repeat (apply elem_of_cons in Hin as [Hin|Hin]; [discriminate|]).
  apply elem_of_app in Hin as [Hin|Hin].
  { rewrite Forall_forall in Hidx. by apply Hidx in Hin. }
  apply elem_of_app in Hin as [Hin|Hin].
  - destruct logs as [|d ds]; [by apply elem_of_nil in Hin|].
    apply list_elem_of_singleton in Hin. injection Hin as ->.
    by apply generate_loop_ok in Hgen as (? & _).
  - apply list_elem_of_singleton in Hin. discriminate.
Qed.

(** ** The run of the search handler *)

Section SearchRun.
Context (w : world).

(** The run of the handler once the connection is up and both names are
    accepted by the driver. *)
Lemma search_connected req db coll :
  srv_client (store w) (environ w !! "MONGODB_URI") = None ->
  srv_ping (store w) = None ->
  check_db_name (environ w !! "DB_NAME") = inr db ->
  check_coll_name (environ w !! "COLL_NAME") = inr coll ->
  Webapp.search w req init =
    let mc := criteria_of req in
    let total_docs := match srv_count (store w) mc with inr n => n | inl _ => 0 end in
    let tp := Webapp.total_pages_of total_docs in
    let page := Webapp.clamp_page (Webapp.parse_page req) tp in
    let pl := Webapp.build_pipeline mc (Webapp.skip_of page tp) in
    let evs := [EvClient (environ w !! "MONGODB_URI"); EvPing; EvCount mc;
                EvAggregate pl; EvClose] in
    let shown r e :=
      Webapp.view r e (Webapp.args_get req "app" "") (Webapp.args_get req "host" "")
        (Webapp.args_get req "env" "") (Webapp.args_get req "level" "")
        (Webapp.args_get req "start" "") (Webapp.args_get req "end" "")
        page total_docs tp in
    match srv_aggregate (store w) pl with
    | inr res =>
        (inr (shown res ""),
         MkState 0 0 0 evs ["MongoDB connection successful!"])
    | inl e =>
        (inr (shown [] ("Search failed: " +:+ exn_msg e)),
         MkState 0 0 0 evs ["MongoDB connection successful!";
                            "Aggregation error: " +:+ exn_msg e])
    end.
Proof.
  intros Hc Hp Hdb Hcoll.
  unfold Webapp.search, Webapp.get_mongo_client, criteria_of,
    try_except, bind, emit, outcome, print, lift, raise, ret.
  rewrite Hc, Hp, Hdb, Hcoll. cbn zeta.
  destruct (srv_count (store w) _) as [e|n]; cbn [events stdout rng_pos faker_pos clock_pos];
    destruct (srv_aggregate (store w) _) as [e'|res]; reflexivity.
Qed.

(** Without a connection, or with a name the driver refuses, the handler
    stops before the count. *)
Lemma search_stops_early req :
  srv_client (store w) (environ w !! "MONGODB_URI") <> None
  \/ srv_ping (store w) <> None
  \/ (exists e, check_db_name (environ w !! "DB_NAME") = inl e)
  \/ (exists e, check_coll_name (environ w !! "COLL_NAME") = inl e) ->
  events (Webapp.search w req init).2 = []
  \/ events (Webapp.search w req init).2 = [EvClient (environ w !! "MONGODB_URI"); EvPing].
Proof.
  intros H.
  unfold Webapp.search, Webapp.get_mongo_client,
    try_except, bind, emit, outcome, print, lift, raise, ret.
  destruct (srv_client (store w) _) as [e|]; simpl.
  { left. destruct e; simpl; try reflexivity.
    destruct (Webapp.int_page _); reflexivity. }
  right. destruct (srv_ping (store w)) as [e|]; simpl.
  { destruct e; simpl; try reflexivity.
    destruct (Webapp.int_page _); reflexivity. }
  destruct (check_db_name _) as [?|?]; simpl; [reflexivity|].
  destruct (check_coll_name _) as [?|?]; simpl; [reflexivity|].
  destruct H as [H|[H|[[? H]|[? H]]]]; done.
Qed.

End SearchRun.

Lemma search_begins_with_connection (w : world) (req : Webapp.request) :
  srv_client (store w) (environ w !! "MONGODB_URI") = None ->
  exists rest,
    events (Webapp.search w req init).2
    = EvClient (environ w !! "MONGODB_URI") :: EvPing :: rest.
Proof.
  intros Hc.
  unfold Webapp.search, Webapp.get_mongo_client,
    try_except, bind, emit, outcome, print, lift, raise, ret.
  rewrite Hc. simpl.
  destruct (srv_ping (store w)) as [e|]; simpl.
  { destruct e; simpl; eauto. destruct (Webapp.int_page _); simpl; eauto. }
  destruct (check_db_name _); simpl; eauto.
  destruct (check_coll_name _); simpl; eauto.
  destruct (srv_count (store w) _); simpl;
    destruct (srv_aggregate (store w) _); simpl; eauto.
Qed.

Lemma search_reads_three (w w' : world) (req : Webapp.request) st :
  store w' = store w ->
  (forall k, k ∈ READ_BY_SEARCH -> environ w' !! k = environ w !! k) ->
  Webapp.search w' req st = Webapp.search w req st.
Proof.
  intros Hs He. unfold Webapp.search, Webapp.get_mongo_client.
  rewrite Hs, (He "MONGODB_URI"), (He "DB_NAME"), (He "COLL_NAME");
    [reflexivity | in_list ..].
Qed.

(** The queries that reach the store in a run of the handler are the one
    built from the request. *)
Lemma search_sends_criteria (w : world) (req : Webapp.request) r st c :
  Webapp.search w req init = (r, st) ->
  EvCount c ∈ events st \/ (exists p, EvAggregate p ∈ events st /\ Match c ∈ p) ->
  c = criteria_of req.
Proof.
  intros Hrun Hin.
  destruct (srv_client (store w) (environ w !! "MONGODB_URI")) as [x|] eqn:E1;
    [|destruct (srv_ping (store w)) as [x|] eqn:E2;
      [|destruct (check_db_name (environ w !! "DB_NAME")) as [x|db] eqn:E3;
        [|destruct (check_coll_name (environ w !! "COLL_NAME")) as [x|coll] eqn:E4]]].
  1-4: exfalso;
    assert (Hearly :
      srv_client (store w) (environ w !! "MONGODB_URI") <> None
      \/ srv_ping (store w) <> None
      \/ (exists e, check_db_name (environ w !! "DB_NAME") = inl e)
      \/ (exists e, check_coll_name (environ w !! "COLL_NAME") = inl e))
      by (rewrite ?E1, ?E2, ?E3, ?E4; eauto 6);
    destruct (search_stops_early w req Hearly) as [Hev|Hev];
    rewrite Hrun in Hev; simpl in Hev; rewrite Hev in Hin;
    destruct Hin as [Hin|(p & Hin & _)];
    repeat (apply elem_of_cons in Hin as [Hin|Hin]; [discriminate|]);
    by apply elem_of_nil in Hin.
  rewrite (search_connected w req db coll E1 E2 E3 E4) in Hrun. cbn zeta in Hrun.
  assert (Hev : events st =
            [EvClient (environ w !! "MONGODB_URI"); EvPing; EvCount (criteria_of req);
             EvAggregate
               (Webapp.build_pipeline (criteria_of req)
                  (Webapp.skip_of
                     (Webapp.clamp_page (Webapp.parse_page req)
                        (Webapp.total_pages_of
                           match srv_count (store w) (criteria_of req) with
                           | inr n => n | inl _ => 0 end))
                     (Webapp.total_pages_of
                        match srv_count (store w) (criteria_of req) with
                        | inr n => n | inl _ => 0 end)));
             EvClose]).
  { destruct (srv_aggregate (store w) _); by injection Hrun as <- <-. }
  rewrite Hev in Hin. clear Hev Hrun.
  destruct Hin as [Hin|(p & Hin & Hp)].
  - repeat (apply elem_of_cons in Hin as [Hin|Hin]; [try discriminate|]);
      [by injection Hin | by apply elem_of_nil in Hin].
  - repeat (apply elem_of_cons in Hin as [Hin|Hin]; [try discriminate|]);
      [|by apply elem_of_nil in Hin].
    injection Hin as ->. unfold Webapp.build_pipeline in Hp.
    destruct (bool_decide _), (_ =? 0); simpl in Hp;
      repeat (apply elem_of_cons in Hp as [Hp|Hp]; [try discriminate|]);
      try (by apply elem_of_nil in Hp); by injection Hp.
Qed.

(** ** Requests *)

Section Requests.

Lemma args_get_drop_key key req dflt :
  Webapp.args_get (drop_key key req) key dflt = dflt.
Proof.
  induction req as [|[k v] rest IH]; simpl; [done|].
  destruct (String.eqb k key) eqn:E; [done|]. simpl. by rewrite E.
Qed.

Lemma args_get_drop_key_ne key key' req dflt :
  key <> key' ->
  Webapp.args_get (drop_key key req) key' dflt = Webapp.args_get req key' dflt.
Proof.
  intros Hne. induction req as [|[k v] rest IH]; simpl; [done|].
  destruct (String.eqb k key) eqn:E.
  - apply String.eqb_eq in E as ->.
    destruct (String.eqb key key') eqn:E'; [|done].
    by apply String.eqb_eq in E'.
  - simpl. by rewrite IH.
Qed.

Lemma args_get_first req key dflt :
  Webapp.args_get req key dflt = default dflt (args_first req key).
Proof.
  induction req as [|[k v] rest IH]; simpl; [done|].
  by destruct (String.eqb k key).
Qed.

(** The handler sees a request only through the first values of seven
    parameters. *)
Lemma search_ext (w : world) (req1 req2 : Webapp.request) st :
  (forall k, k ∈ FILTERS -> Webapp.args_get req1 k "" = Webapp.args_get req2 k "") ->
  Webapp.args_get req1 "page" "1" = Webapp.args_get req2 "page" "1" ->
  Webapp.search w req1 st = Webapp.search w req2 st.
Proof.
  intros Hf Hp. unfold Webapp.search, Webapp.parse_page.
  rewrite Hp.
  rewrite (Hf "app"), (Hf "host"), (Hf "env"), (Hf "level"), (Hf "start"), (Hf "end");
    [reflexivity | in_list ..].
Qed.

(** Every page the handler renders shows the filters again as they came. *)
Lemma search_echo (w : world) (req : Webapp.request) st v st' k :
  Webapp.search w req st = (inr v, st') -> k ∈ FILTERS ->
  echo k v = Webapp.args_get req k "".
Proof.
  unfold Webapp.search. intros H Hk. inv_run.
  assert (Hv : Webapp.app v = Webapp.args_get req "app" ""
               /\ Webapp.host v = Webapp.args_get req "host" ""
               /\ Webapp.env v = Webapp.args_get req "env" ""
               /\ Webapp.level v = Webapp.args_get req "level" ""
               /\ Webapp.start v = Webapp.args_get req "start" ""
               /\ Webapp.end_ v = Webapp.args_get req "end" "").
  { destruct a as [[]|]; inv_run; [|done].
    match goal with
    | H : match ?x with inl _ => _ | inr _ => _ end _ = _ |- _ => destruct x
    end; inv_run; done. }
  destruct Hv as (? & ? & ? & ? & ? & ?).
  unfold FILTERS in Hk.
  repeat (apply elem_of_cons in Hk as [->|Hk]; [done|]).
  by apply elem_of_nil in Hk.
Qed.

End Requests.


Lemma parse_datetime_string_order (s : string) :
  Webapp.parse_datetime_string s =
    match Py.strptime_minute s with
    | Some t => Some t
    | None => Py.strptime_day s
    end.
Proof.
  unfold Webapp.parse_datetime_string. destruct s as [|c s]; [reflexivity|].
  simpl. destruct (Py.strptime_minute _); [done|]. by destruct (Py.strptime_day _).
Qed.

(** ** Queries *)

Section Inserts.
Context {V : Type}.
Implicit Types (m : gmap string V) (P : string -> V -> Prop).

Lemma map_Forall_cond_insert P (b : bool) k (c : V) m :
  m !! k = None ->
  map_Forall P (if b then <[k := c]> m else m) <-> (b = true -> P k c) /\ map_Forall P m.
Proof.
  intros Hk. destruct b.
  - rewrite map_Forall_insert by done. intuition.
  - intuition. discriminate.
Qed.

Lemma lookup_cond_insert_ne (b : bool) k k' (c : V) m :
  k <> k' -> (if b then <[k := c]> m else m) !! k' = m !! k'.
Proof. intros Hne. destruct b; [by rewrite lookup_insert_ne|done]. Qed.

Lemma lookup_cond_insert (b : bool) k (c : V) m :
  (if b then <[k := c]> m else m) !! k = if b then Some c else m !! k.
Proof. destruct b; [apply lookup_insert_eq|done]. Qed.

End Inserts.

Lemma crit_holds_eq s v : crit_holds (CEq s) v <-> v = Some (VStr s).
Proof.
  unfold crit_holds. destruct v as [[]|]; split; try done; try congruence.
Qed.

Lemma crit_holds_ops ops v :
  crit_holds (COps ops) v
  <-> exists t, v = Some (VTime t) /\ map_Forall (fun op bound => op_holds op bound t) ops.
Proof.
  unfold crit_holds. destruct v as [[]|]; split; try done;
    try (by intros (? & [=] & _)).
  - eauto.
  - intros (? & [= <-] & H). exact H.
Qed.

(** The comparison dictionary of the handler, for each way of supplying the
    two bounds. *)
Lemma time_criteria_holds (start_time end_time : option Py.datetime) (t : Py.datetime) :
  map_Forall (fun op bound => op_holds op bound t)
    (let tc : gmap string Py.datetime := ∅ in
     let tc := match start_time with Some x => <["$gte" := x]> tc | None => tc end in
     match end_time with Some x => <["$lte" := x]> tc | None => tc end)
  <-> (forall x, start_time = Some x -> x <= t) /\ (forall x, end_time = Some x -> t <= x).
Proof.
  cbn zeta. destruct start_time as [s|], end_time as [e|];
    rewrite ?map_Forall_insert by (rewrite ?lookup_insert_ne by done; apply lookup_empty);
    unfold op_holds; simpl; split.
  - intros (? & ? & _). split; intros x [= <-]; done.
  - intros [Hs He]. repeat split; auto. apply map_Forall_empty.
  - intros (? & _). split; intros x [= <-]; done.
  - intros [Hs He]. repeat split; auto. apply map_Forall_empty.
  - intros (? & _). split; intros x [= <-]; done.
  - intros [Hs He]. repeat split; auto. apply map_Forall_empty.
  - intros _. split; intros x [=].
  - intros _. apply map_Forall_empty.
Qed.

Lemma some_bound_supplied (s e : option Py.datetime) :
  bool_decide (is_Some s) || bool_decide (is_Some e) = true <-> is_Some s \/ is_Some e.
Proof. by rewrite orb_true_iff, !bool_decide_eq_true. Qed.

(** The entries of the query, key by key. *)
Lemma build_match_criteria_lookup level_val start_time end_time app_val host_val env_val :
  let c := Webapp.build_match_criteria level_val start_time end_time
             app_val host_val env_val in
  c !! "level" = (if Py.truthy level_val then Some (CEq level_val) else None)
  /\ c !! "meta.app" = (if Py.truthy app_val then Some (CEq app_val) else None)
  /\ c !! "meta.host" = (if Py.truthy host_val then Some (CEq host_val) else None)
  /\ c !! "meta.env" = (if Py.truthy env_val then Some (CEq env_val) else None)
  /\ (forall cr, c !! "timestamp" = Some cr ->
        exists ops, cr = COps ops
                    /\ ops !! "$gte" = start_time /\ ops !! "$lte" = end_time).
Proof.
  unfold Webapp.build_match_criteria. cbn zeta.
  repeat split.
  - rewrite !lookup_cond_insert_ne by done. by rewrite lookup_cond_insert.
  - rewrite !lookup_cond_insert_ne by done. rewrite lookup_cond_insert.
    rewrite !lookup_cond_insert_ne by done. done.
  - rewrite !lookup_cond_insert_ne by done. rewrite lookup_cond_insert.
    rewrite !lookup_cond_insert_ne by done. done.
  - rewrite lookup_cond_insert.
    rewrite !lookup_cond_insert_ne by done. done.
  - intros cr. rewrite !lookup_cond_insert_ne by done. rewrite lookup_cond_insert.
    rewrite lookup_cond_insert_ne by done. rewrite lookup_empty.
    destruct (_ || _); [|discriminate]. intros [= <-]. eexists. split; [reflexivity|].
    destruct start_time, end_time; split; reflexivity.
Qed.

(** What the query asks of a document, entry by entry. *)
Lemma matches_build_match_criteria level_val start_time end_time app_val host_val env_val d :
  matches (Webapp.build_match_criteria level_val start_time end_time
             app_val host_val env_val) d
  <-> (Py.truthy level_val = true -> get_path d "level" = Some (VStr level_val))
      /\ (Py.truthy app_val = true -> get_path d "meta.app" = Some (VStr app_val))
      /\ (Py.truthy host_val = true -> get_path d "meta.host" = Some (VStr host_val))
      /\ (Py.truthy env_val = true -> get_path d "meta.env" = Some (VStr env_val))
      /\ (is_Some start_time \/ is_Some end_time ->
          exists t, get_path d "timestamp" = Some (VTime t)
                    /\ (forall x, start_time = Some x -> x <= t)
                    /\ (forall x, end_time = Some x -> t <= x)).
Proof.
  unfold matches, Webapp.build_match_criteria. cbn zeta.
  rewrite !map_Forall_cond_insert
    by (rewrite ?lookup_cond_insert_ne by done; apply lookup_empty).
  rewrite !crit_holds_eq, crit_holds_ops, some_bound_supplied.
  pose proof (time_criteria_holds start_time end_time) as Htc. cbn zeta in Htc.
  split.
  - intros (He & Hh & Ha & Ht & Hl & _). repeat split; try done.
    intros Hb. destruct (Ht Hb) as (t & Hts & Hops). exists t. split; [done|].
    by apply Htc.
  - intros (Hl & Ha & Hh & He & Ht). repeat split; try done; try apply map_Forall_empty.
    intros Hb. destruct (Ht Hb) as (t & Hts & Hops). exists t. split; [done|].
    by apply Htc.
Qed.

Example matches_example :
  bool_decide
    (matches (Webapp.build_match_criteria "ERROR" (Py.strptime_day "2024-05-01") None
                "svc-a" "" "")
       (<["level" := VStr "ERROR"]> (<["timestamp" := VTime Sample.noon]> (
        <["meta" := VSub (<["app" := "svc-a"]> ∅)]> ∅)))) = true
  /\ bool_decide
       (matches (Webapp.build_match_criteria "ERROR" None (Py.strptime_day "2024-05-01")
                   "svc-a" "" "")
          (<["level" := VStr "ERROR"]> (<["timestamp" := VTime Sample.noon]> (
           <["meta" := VSub (<["app" := "svc-a"]> ∅)]> ∅)))) = false.
Proof. split; vm_compute; reflexivity. Qed.

(** ** Sample evaluations *)

Example int_of_str_examples :
  Py.int_of_str " 12 " = Some 12 /\ Py.int_of_str "-3" = Some (-3)
  /\ Py.int_of_str "1_0" = Some 10 /\ Py.int_of_str "007" = Some 7
  /\ Py.int_of_str "abc" = None /\ Py.int_of_str "1__0" = None
  /\ Py.int_of_str "+ 5" = None /\ Py.int_of_str "" = None.
Proof. repeat split; vm_compute; reflexivity. Qed.

Example strptime_examples :
  Py.strptime_minute "2024-05-01T12:00" = Some Sample.noon
  /\ Py.strptime_day "2024-05-01" = Some (Sample.noon - Py.timedelta 0 43200)
  /\ Py.strptime_day "2024-5-1" = Py.strptime_day "2024-05-01"
  /\ Py.strptime_day "2023-02-29" = None
  /\ Py.strptime_day "2024-05-01T12:00" = None
  /\ Webapp.parse_datetime_string "2024-05-01T12:00" = Some Sample.noon
  /\ Webapp.parse_datetime_string "not-a-date" = None.
Proof. repeat split; vm_compute; reflexivity. Qed.

Example ceil_true_div_examples :
  Py.ceil (Py.true_div 1 50) = 1 /\ Py.ceil (Py.true_div 50 50) = 1
  /\ Py.ceil (Py.true_div 51 50) = 2 /\ Py.ceil (Py.true_div 125 50) = 3.
Proof. repeat split; vm_compute; reflexivity. Qed.

(** A request for page 5 of the ERROR records of one application, against a
    store reporting 125 matches: the page shown is 3 and the fetch skips 100. *)
Example search_example :
  exists v st,
    Webapp.search (Sample.mk Sample.env_search Sample.answering)
      [("level", "ERROR"); ("app", "svc-a"); ("page", "5")] init = (inr v, st)
    /\ Webapp.page v = 3 /\ Webapp.total v = 125 /\ Webapp.total_pages v = 3
    /\ Webapp.has_prev v = true /\ Webapp.has_next v = false
    /\ events st
       = [EvClient (Some "mongodb://db.example"); EvPing;
          EvCount (<["meta.app" := CEq "svc-a"]> (<["level" := CEq "ERROR"]> ∅));
          EvAggregate
            [Match (<["meta.app" := CEq "svc-a"]> (<["level" := CEq "ERROR"]> ∅));
             Sort "timestamp" (-1); Skip 100; Limit 50];
          EvClose].
Proof. eexists _, _. repeat split; vm_compute; reflexivity. Qed.

(** * The claims *)

(** ** C1: the window of uniform timestamps *)

(** C1. With the draws 7 and 86400, both of which [randint] can return, the
    only record of a uniform batch is dated eight days before the clock
    reading taken for it, outside the seven-day window. *)
Theorem uniform_timestamp_eight_days_back :
  exists d st,
    Generator.generate_logs (Sample.mk Sample.env_full Sample.answering)
      Sample.one_record init = (inr [d], st)
    /\ clock (Sample.mk Sample.env_full Sample.answering) 0 = Sample.noon
    /\ timestamp_of d = Some (Sample.noon - eight_days)
    /\ Sample.noon - eight_days < Sample.noon - seven_days.
Proof.
  set (r := Generator.generate_logs (Sample.mk Sample.env_full Sample.answering)
              Sample.one_record init).
  exists (default ∅ (head (returned [] r))), r.2.
  split; [decided|].
  repeat split; vm_compute; reflexivity.
Qed.

(** ** C2: the configuration check *)

(** C2, as stated, fails for the search handler: with no TIME_FIELD and no
    META_FIELD it connects, queries and renders a page without any error. *)
Lemma search_proceeds_without_time_field :
  environ (Sample.mk Sample.env_search Sample.answering) !! "TIME_FIELD" = None
  /\ exists v st,
       Webapp.search (Sample.mk Sample.env_search Sample.answering) [] init = (inr v, st)
       /\ EvPing ∈ events st /\ Webapp.error v = "".
Proof.
  split; [reflexivity|]. eexists _, _. split; [vm_compute; reflexivity|].
  split; [|reflexivity]. apply list_elem_of_further, list_elem_of_here.
Qed.

(** C2, amended. When one of the five values is absent or empty the
    generator prints its message and returns without a single call to the
    store. The search handler makes no such check: it behaves the same in
    any two environments that agree on MONGODB_URI, DB_NAME and COLL_NAME,
    so TIME_FIELD and META_FIELD are never looked at, and it starts by
    opening the connection with whatever MONGODB_URI holds. *)
Theorem config_checked_by_generator_only (w : world) (a : Generator.args)
    (req : Webapp.request) (k : string) :
  k ∈ REQUIRED -> Py.truthy_opt (environ w !! k) = false ->
  Generator.main w a init = (inr tt, MkState 0 0 0 [] [Generator.MISSING_CONFIG])
  /\ (forall w', store w' = store w ->
                 (forall k', k' ∈ READ_BY_SEARCH -> environ w' !! k' = environ w !! k') ->
                 Webapp.search w' req init = Webapp.search w req init)
  /\ (srv_client (store w) (environ w !! "MONGODB_URI") = None ->
      exists rest,
        events (Webapp.search w req init).2
        = EvClient (environ w !! "MONGODB_URI") :: EvPing :: rest).
Proof.
  intros Hk Hmissing. split; [|split].
  - unfold Generator.main, Generator.load_config. simpl.
    unfold REQUIRED in Hk.
    repeat (apply elem_of_cons in Hk as [->|Hk];
            [rewrite Hmissing; simpl; rewrite ?andb_false_r; reflexivity|]).
    by apply elem_of_nil in Hk.
  - intros w' Hs He. by apply search_reads_three.
  - apply search_begins_with_connection.
Qed.

Lemma config_checked_by_generator_only_witness :
  Generator.main (Sample.mk Sample.env_search Sample.answering) Sample.one_record init
  = (inr tt, MkState 0 0 0 [] [Generator.MISSING_CONFIG]).
Proof.
  apply (config_checked_by_generator_only
           (Sample.mk Sample.env_search Sample.answering) Sample.one_record []
           "TIME_FIELD").
  - in_list.
  - reflexivity.
Defined.

(** ** C3: pagination *)

(** C3, as stated, fails: for a total of [50 * 2^48 + 1] the quotient is
    rounded to [2^48] before the ceiling is taken, one page too few. *)
Lemma total_pages_rounds_down_above_2_48 :
  Webapp.total_pages_of 14073748835532801 = 281474976710656
  /\ 50 * 281474976710656 < 14073748835532801.
Proof. split; [vm_compute; reflexivity | lia]. Qed.

(** C3, amended. For a total of at most [50 * 2^48] the number of pages is
    the ceiling of [total / 50], and 0 for an empty total; a requested page
    beyond the last one becomes the last one, any other is kept; the offset
    is [(page - 1) * 50], and 0 when there are no pages. For 125 documents
    there are 3 pages, page 5 becomes page 3 and page 3 starts at offset 100. *)
Theorem pagination_exact_up_to_2_48 (t p : Z) :
  0 <= t <= 50 * 2 ^ 48 -> 1 <= p ->
  let tp := Webapp.total_pages_of t in
  let page := Webapp.clamp_page p tp in
  (t = 0 -> tp = 0)
  /\ (0 < t -> 50 * (tp - 1) < t <= 50 * tp)
  /\ (0 < tp -> tp < p -> page = tp)
  /\ (p <= tp \/ tp = 0 -> page = p)
  /\ Webapp.skip_of page tp = (if tp =? 0 then 0 else (page - 1) * 50)
  /\ Webapp.total_pages_of 125 = 3
  /\ Webapp.clamp_page 5 3 = 3
  /\ Webapp.skip_of 3 3 = 100.
Proof.
  intros Ht Hp. cbn zeta.
  split; [intros ->; reflexivity|].
  split.
  { intros Hpos. rewrite total_pages_of_exact by lia.
    pose proof (Z.div_mod (t + 49) 50 ltac:(lia)).
    pose proof (Z.mod_pos_bound (t + 49) 50 ltac:(lia)). lia. }
  unfold Webapp.clamp_page, Webapp.skip_of, Webapp.PAGE_SIZE.
  split; [intros H1 H2; destruct (Z.ltb_spec 0 (Webapp.total_pages_of t)),
            (Z.ltb_spec (Webapp.total_pages_of t) p); simpl; lia|].
  split; [intros H1; destruct (Z.ltb_spec 0 (Webapp.total_pages_of t)),
            (Z.ltb_spec (Webapp.total_pages_of t) p); simpl; lia|].
  split; [destruct (Z.eqb_spec (Webapp.total_pages_of t) 0); reflexivity|].
  repeat split; vm_compute; reflexivity.
Qed.

Lemma pagination_exact_up_to_2_48_witness :
  Webapp.total_pages_of 125 = 3
  /\ Webapp.clamp_page 5 (Webapp.total_pages_of 125) = Webapp.total_pages_of 125
  /\ Webapp.skip_of (Webapp.clamp_page 5 (Webapp.total_pages_of 125))
       (Webapp.total_pages_of 125) = 100.
Proof.
  destruct (pagination_exact_up_to_2_48 125 5) as (_ & _ & Hclamp & _ & Hskip & H125 & _).
  - vm_compute. split; discriminate.
  - lia.
  - split; [exact H125|]. split.
    + apply Hclamp; rewrite H125; lia.
    + rewrite Hskip, Hclamp by (rewrite H125; lia). rewrite H125. reflexivity.
Defined.

(** ** C4: a failing count *)

(** C4. When the count the handler sends fails, the page is still rendered:
    the total and the number of pages are 0, the page fetch is sent next with
    no skip stage, the connection is closed, and the only error the page can
    show is that of the page fetch. *)
Theorem count_failure_is_soft (w : world) (req : Webapp.request) r st c e :
  Webapp.search w req init = (r, st) ->
  EvCount c ∈ events st ->
  srv_count (store w) c = inl e ->
  exists v,
    r = inr v /\ Webapp.total v = 0 /\ Webapp.total_pages v = 0
    /\ c = criteria_of req
    /\ events st = [EvClient (environ w !! "MONGODB_URI"); EvPing; EvCount c;
                    EvAggregate (Webapp.build_pipeline c 0); EvClose]
    /\ (forall n, Skip n ∉ Webapp.build_pipeline c 0)
    /\ Webapp.error v =
         match srv_aggregate (store w) (Webapp.build_pipeline c 0) with
         | inl e' => "Search failed: " +:+ exn_msg e'
         | inr _ => ""
         end
    /\ Webapp.results v =
         match srv_aggregate (store w) (Webapp.build_pipeline c 0) with
         | inl _ => []
         | inr res => res
         end.
Proof.
  intros Hrun Hin Hc.
  assert (Hskip : forall n, Skip n ∉ Webapp.build_pipeline c 0).
  { intros n. unfold Webapp.build_pipeline. simpl.
    destruct (bool_decide _); intros Hn;
      repeat (apply elem_of_cons in Hn as [Hn|Hn]; [discriminate|]);
      by apply elem_of_nil in Hn. }
  destruct (srv_client (store w) (environ w !! "MONGODB_URI")) as [x|] eqn:E1;
    [|destruct (srv_ping (store w)) as [x|] eqn:E2;
      [|destruct (check_db_name (environ w !! "DB_NAME")) as [x|db] eqn:E3;
        [|destruct (check_coll_name (environ w !! "COLL_NAME")) as [x|coll] eqn:E4]]].
  1-4: exfalso;
    assert (Hearly :
      srv_client (store w) (environ w !! "MONGODB_URI") <> None
      \/ srv_ping (store w) <> None
      \/ (exists e, check_db_name (environ w !! "DB_NAME") = inl e)
      \/ (exists e, check_coll_name (environ w !! "COLL_NAME") = inl e))
      by (rewrite ?E1, ?E2, ?E3, ?E4; eauto 6);
    destruct (search_stops_early w req Hearly) as [Hev|Hev];
    rewrite Hrun in Hev; simpl in Hev; rewrite Hev in Hin;
    repeat (apply elem_of_cons in Hin as [Hin|Hin]; [discriminate|]);
    by apply elem_of_nil in Hin.
  rewrite (search_connected w req db coll E1 E2 E3 E4) in Hrun. cbn zeta in Hrun.
  assert (Hmc : c = criteria_of req).
  { destruct (srv_aggregate (store w) _); injection Hrun as <- <-; simpl in Hin;
      repeat (apply elem_of_cons in Hin as [Hin|Hin]; [try discriminate|]);
      try (injection Hin as ->; reflexivity); by apply elem_of_nil in Hin. }
  subst c. rewrite Hc in Hrun.
  change (Webapp.total_pages_of 0) with 0 in Hrun.
  change (Webapp.skip_of (Webapp.clamp_page (Webapp.parse_page req) 0) 0) with 0 in Hrun.
  destruct (srv_aggregate (store w) _) as [e'|res]; injection Hrun as <- <-;
    eexists; repeat split; done.
Qed.

Lemma count_failure_is_soft_witness :
  exists v,
    (Webapp.search (Sample.mk Sample.env_search Sample.count_fails) [] init).1 = inr v
    /\ Webapp.total v = 0 /\ Webapp.total_pages v = 0 /\ Webapp.error v = "".
Proof.
  destruct (count_failure_is_soft (Sample.mk Sample.env_search Sample.count_fails) []
              (Webapp.search (Sample.mk Sample.env_search Sample.count_fails) [] init).1
              (Webapp.search (Sample.mk Sample.env_search Sample.count_fails) [] init).2
              ∅ (OperationFailure "count failed"))
    as (v & Hv & Ht & Hp & _ & _ & _ & He & _).
  - by destruct (Webapp.search _ _ _).
  - vm_compute. do 2 apply list_elem_of_further. apply list_elem_of_here.
  - reflexivity.
  - exists v. rewrite He. repeat split; done.
Defined.

(** ** C5: the query as a conjunction *)

(** C5. A document satisfies the query built by the handler exactly when it
    passes every filter that was supplied: equality on level, application,
    host and environment for the non-empty ones, the start as an inclusive
    lower bound and the end as an inclusive upper bound on the timestamp;
    a filter left out asks nothing. *)
Theorem match_criteria_is_conjunction (level_val : string)
    (start_time end_time : option Py.datetime) (app_val host_val env_val : string)
    (d : doc) :
  matches (Webapp.build_match_criteria level_val start_time end_time
             app_val host_val env_val) d
  <-> (Py.truthy level_val = true -> get_path d "level" = Some (VStr level_val))
      /\ (forall t, start_time = Some t ->
            exists ts, get_path d "timestamp" = Some (VTime ts) /\ t <= ts)
      /\ (forall t, end_time = Some t ->
            exists ts, get_path d "timestamp" = Some (VTime ts) /\ ts <= t)
      /\ (Py.truthy app_val = true -> get_path d "meta.app" = Some (VStr app_val))
      /\ (Py.truthy host_val = true -> get_path d "meta.host" = Some (VStr host_val))
      /\ (Py.truthy env_val = true -> get_path d "meta.env" = Some (VStr env_val)).
Proof.
  unfold matches, Webapp.build_match_criteria. cbn zeta.
  rewrite !map_Forall_cond_insert
    by (rewrite ?lookup_cond_insert_ne by done; apply lookup_empty).
  rewrite !crit_holds_eq, crit_holds_ops.
  pose proof (time_criteria_holds start_time end_time) as Htc. cbn zeta in Htc.
  split.
  - intros (He & Hh & Ha & Ht & Hl & _).
    repeat split; try done.
    + intros t ->.
      destruct (Ht ltac:(apply some_bound_supplied; eauto)) as (ts & Hts & Hops).
      exists ts. split; [done|]. apply Htc in Hops. by apply Hops.
    + intros t ->.
      destruct (Ht ltac:(apply some_bound_supplied; eauto)) as (ts & Hts & Hops).
      exists ts. split; [done|]. apply Htc in Hops. by apply Hops.
  - intros (Hl & Hs & He & Ha & Hh & Hv).
    repeat split; try done; try apply map_Forall_empty.
    intros Hb.
    destruct start_time as [s|].
    + destruct (Hs s eq_refl) as (ts & Hts & Hge). exists ts. split; [done|].
      apply Htc. split; [by intros x [= <-]|].
      intros x ->. destruct (He x eq_refl) as (ts' & Hts' & Hle). congruence.
    + destruct end_time as [e|];
        [|apply some_bound_supplied in Hb as [[? [=]]|[? [=]]]].
      destruct (He e eq_refl) as (ts & Hts & Hle). exists ts. split; [done|].
      apply Htc. split; [by intros x [=]|]. by intros x [= <-].
Qed.

(** ** C6: the records of a batch *)

(** C6. Every record of a generated batch has one of the five levels, a
    timestamp, an application, a host and an environment taken from the
    candidate lists, and a stack only at level ERROR or FATAL; with
    candidates for the application and the host, the batch is produced and
    has the requested number of records. *)
Theorem generated_records_ok (w : world) (a : Generator.args) (st : state) :
  (forall logs st', Generator.generate_logs w a st = (inr logs, st') ->
                    Forall (record_ok a) logs)
  /\ (Generator.apps a <> [] -> Generator.hosts a <> [] ->
      exists logs st', Generator.generate_logs w a st = (inr logs, st')
                       /\ length logs = Z.to_nat (Generator.count a)).
Proof.
  split.
  - intros logs st' H. by apply generate_loop_ok in H as (? & _).
  - intros Ha Hh.
    destruct (total_generate_loop w a (Z.to_nat (Generator.count a)) Ha Hh [] st)
      as (logs & st' & E).
    exists logs, st'. split; [exact E|].
    by apply generate_loop_ok in E as (_ & ? & _).
Qed.

Lemma generated_records_ok_witness :
  exists logs st',
    Generator.generate_logs (Sample.mk Sample.env_full Sample.answering)
      Sample.one_record init = (inr logs, st')
    /\ length logs = 1%nat /\ Forall (record_ok Sample.one_record) logs.
Proof.
  destruct (generated_records_ok (Sample.mk Sample.env_full Sample.answering)
              Sample.one_record init) as [Hok Htotal].
  destruct Htotal as (logs & st' & E & Hlen); [discriminate | discriminate |].
  exists logs, st'. split; [exact E|]. split; [exact Hlen|]. exact (Hok logs st' E).
Defined.

(** ** C7: date strings *)

(** C7. A date string is read with the minute format first and with the day
    format only when that fails. A start or end that neither format accepts
    is read as no date at all: the handler then runs exactly as it does on
    the request without that parameter, error and outcome included, the
    rendered page differing only in showing the string again. *)
Theorem malformed_date_is_absent (w : world) (req : Webapp.request) (st : state)
    (k : string) :
  k = "start" \/ k = "end" ->
  Py.strptime_minute (Webapp.args_get req k "") = None ->
  Py.strptime_day (Webapp.args_get req k "") = None ->
  Webapp.parse_datetime_string (Webapp.args_get req k "") = None
  /\ criteria_of req = criteria_of (drop_key k req)
  /\ Webapp.search w (drop_key k req) st = map_result (blank k) (Webapp.search w req st)
  /\ (forall s, Webapp.parse_datetime_string s =
                  match Py.strptime_minute s with
                  | Some t => Some t
                  | None => Py.strptime_day s
                  end).
Proof.
  intros Hk Hm Hd.
  assert (Hnone : Webapp.parse_datetime_string (Webapp.args_get req k "") = None)
    by (by rewrite parse_datetime_string_order, Hm, Hd).
  split; [exact Hnone|].
  split; [|split; [|exact parse_datetime_string_order]].
  - unfold criteria_of. destruct Hk as [-> | ->];
      rewrite args_get_drop_key, !args_get_drop_key_ne by done;
      rewrite Hnone; reflexivity.
  - unfold Webapp.search, Webapp.parse_page.
    destruct Hk as [-> | ->];
      rewrite args_get_drop_key, !args_get_drop_key_ne by done;
      rewrite Hnone; change (Webapp.parse_datetime_string "") with (@None Py.datetime);
      unfold bind, try_except, lift, emit, print, ret, raise;
      (destruct (Webapp.get_mongo_client w st) as [[?|[?|]] ?]; simpl;
       [ reflexivity
       | destruct (check_db_name _); simpl; [reflexivity|];
         destruct (check_coll_name _); simpl; [reflexivity|];
         destruct (srv_count (store w) _); simpl;
         destruct (srv_aggregate (store w) _); reflexivity
       | destruct (Webapp.int_page _); reflexivity ]).
Qed.

Lemma malformed_date_is_absent_witness :
  Webapp.parse_datetime_string "not-a-date" = None
  /\ Webapp.search (Sample.mk Sample.env_search Sample.answering) [] init
     = map_result (blank "start")
         (Webapp.search (Sample.mk Sample.env_search Sample.answering)
            [("start", "not-a-date")] init).
Proof.
  destruct (malformed_date_is_absent (Sample.mk Sample.env_search Sample.answering)
              [("start", "not-a-date")] init "start") as (Hp & _ & Hs & _).
  - by left.
  - vm_compute. reflexivity.
  - vm_compute. reflexivity.
  - split; [exact Hp | exact Hs].
Defined.

(** ** C8: closing the connection *)

(** C8, as stated, fails: without DB_NAME the search handler opens the
    connection, the driver refuses the name, and the request ends in a
    [TypeError] with the connection still open. *)
Lemma search_leaves_connection_open_without_db_name :
  exists e st,
    run (Sample.mk Sample.env_no_db Sample.answering) (SearchRequest []) init = (inl e, st)
    /\ acquired (Sample.mk Sample.env_no_db Sample.answering) st
    /\ ~ released st.
Proof.
  eexists _, _. split; [vm_compute; reflexivity|]. split.
  - split; [|reflexivity]. apply list_elem_of_further, list_elem_of_here.
  - unfold released. simpl. discriminate.
Qed.

(** C8, amended. In both programs every run that acquires the connection
    and returns normally has closed it as its last call to the driver; this
    includes the runs in which creating the collection or the indexes, the
    insert, the count or the page fetch failed. *)
Theorem connection_released_on_return (w : world) (op : operation) (st : state) :
  run w op init = (inr tt, st) -> acquired w st -> released st.
Proof.
  destruct op as [a|req]; simpl; intros Hrun.
  - exact (main_released w a st Hrun).
  - inv_run. eapply search_released; eassumption.
Qed.

Lemma connection_released_on_return_witness :
  released (run (Sample.mk Sample.env_full Sample.count_fails)
              (SearchRequest []) init).2
  /\ released (run (Sample.mk Sample.env_full Sample.answering)
                 (GeneratorRun Sample.one_record) init).2.
Proof.
  split.
  - apply (connection_released_on_return
             (Sample.mk Sample.env_full Sample.count_fails) (SearchRequest [])).
    + vm_compute. reflexivity.
    + split; [|reflexivity]. vm_compute.
      apply list_elem_of_further, list_elem_of_here.
  - apply (connection_released_on_return
             (Sample.mk Sample.env_full Sample.answering)
             (GeneratorRun Sample.one_record)).
    + vm_compute. reflexivity.
    + split; [|reflexivity]. vm_compute.
      apply list_elem_of_further, list_elem_of_here.
Defined.

(** ** C9: the page parameter *)

(** C9. With the store out of reach, a request whose page is not a number
    is not answered with page 1: the handler raises [ValueError]; and a page
    below 1 is shown as it came. *)
Theorem bad_page_raises_when_store_is_down :
  (exists st,
     Webapp.search (Sample.mk Sample.env_search Sample.unreachable)
       [("page", "abc")] init
     = (inl (ValueError "invalid literal for int() with base 10"), st))
  /\ (exists v st,
        Webapp.search (Sample.mk Sample.env_search Sample.unreachable)
          [("page", "-3")] init = (inr v, st)
        /\ Webapp.page v = -3)
  /\ srv_ping (store (Sample.mk Sample.env_search Sample.unreachable))
     = Some (ServerSelectionTimeoutError "timed out").
Proof.
  split; [|split].
  - eexists. vm_compute. reflexivity.
  - eexists _, _. split; vm_compute; reflexivity.
  - reflexivity.
Qed.

(** ** C10: empty filters *)

(** C10. A filter parameter sent empty is treated as one that was not sent:
    the run of the handler, with its query, its calls and its rendered page,
    is that of the request without the parameter. The parameter puts
    nothing into the query: the query built from the request has no entry
    for the field of an empty app, host, env or level and no lower or upper
    bound for an empty start or end, so that a record matching it still
    matches with any other value in that field; the count and the match
    stage sent to the store carry that query. Every rendered page shows the
    parameter empty, as it came. *)
Theorem empty_filter_is_absent (w : world) (req : Webapp.request) (st : state)
    (k : string) :
  k ∈ FILTERS -> args_first req k = Some "" ->
  Webapp.search w req st = Webapp.search w (drop_key k req) st
  /\ criteria_of req = criteria_of (drop_key k req)
  /\ no_constraint k (criteria_of req)
  /\ (forall d d', free_in k d d' ->
        matches (criteria_of req) d -> matches (criteria_of req) d')
  /\ (forall r st' c, Webapp.search w req init = (r, st') ->
        EvCount c ∈ events st' \/ (exists p, EvAggregate p ∈ events st' /\ Match c ∈ p) ->
        c = criteria_of req /\ no_constraint k c)
  /\ (forall v st', Webapp.search w req st = (inr v, st') -> echo k v = "").
Proof.
  intros Hk Hempty.
  assert (Hget : forall k', k' ∈ FILTERS ->
            Webapp.args_get req k' "" = Webapp.args_get (drop_key k req) k' "").
  { intros k' _. destruct (decide (k = k')) as [<-|Hne].
    - by rewrite args_get_drop_key, args_get_first, Hempty.
    - by rewrite args_get_drop_key_ne. }
  assert (Hval : Webapp.args_get req k "" = "")
    by (by rewrite args_get_first, Hempty).
  assert (Hnone : no_constraint k (criteria_of req)).
  { destruct (build_match_criteria_lookup
                (Webapp.args_get req "level" "")
                (Webapp.parse_datetime_string (Webapp.args_get req "start" ""))
                (Webapp.parse_datetime_string (Webapp.args_get req "end" ""))
                (Webapp.args_get req "app" "") (Webapp.args_get req "host" "")
                (Webapp.args_get req "env" "")) as (Hl & Ha & Hh & He & Ht).
    fold (criteria_of req) in Hl, Ha, Hh, He, Ht.
    unfold FILTERS in Hk.
    repeat (apply elem_of_cons in Hk as [->|Hk]); [..|by apply elem_of_nil in Hk];
      unfold no_constraint; simpl; rewrite Hval in *; simpl in *; try done.
    - destruct (criteria_of req !! "timestamp") as [cr|]; [|done].
      destruct (Ht cr eq_refl) as (ops & -> & Hs & _). exact Hs.
    - destruct (criteria_of req !! "timestamp") as [cr|]; [|done].
      destruct (Ht cr eq_refl) as (ops & -> & _ & He'). exact He'. }
  split; [|split; [|split; [|split; [|split]]]].
  - apply search_ext; [exact Hget|].
    rewrite args_get_drop_key_ne; [done|].
    intros ->. unfold FILTERS in Hk.
    repeat (apply elem_of_cons in Hk as [Hk|Hk]; [discriminate|]).
    by apply elem_of_nil in Hk.
  - unfold criteria_of.
    rewrite (Hget "app"), (Hget "host"), (Hget "env"), (Hget "level"),
      (Hget "start"), (Hget "end"); [reflexivity | in_list ..].
  - exact Hnone.
  - intros d d' [Hsame Htime]. unfold criteria_of.
    rewrite !matches_build_match_criteria.
    intros (Hl & Ha & Hh & He & Ht).
    unfold FILTERS in Hk.
    repeat (apply elem_of_cons in Hk as [->|Hk]); [..|by apply elem_of_nil in Hk];
      rewrite Hval in *; cbn in Hsame;
      (split; [|split; [|split; [|split]]]);
      try (by intros [=]);
      try (rewrite Hsame; [assumption | unfold QUERIED; in_list | done]).
    + intros [[? [=]]|Hb].
      destruct (Ht (or_intror Hb)) as (t0 & Ht0 & _ & Hle).
      destruct (Htime (or_introl eq_refl)) as (t & t' & Hd & Hd' & Hord).
      exists t'. split; [done|]. split; [intros ? [=]|].
      intros x Hx. specialize (Hle x Hx). cbn in Hord. simplify_eq. lia.
    + intros [Hb|[? [=]]].
      destruct (Ht (or_introl Hb)) as (t0 & Ht0 & Hge & _).
      destruct (Htime (or_intror eq_refl)) as (t & t' & Hd & Hd' & Hord).
      exists t'. split; [done|]. split; [|intros ? [=]].
      intros x Hx. specialize (Hge x Hx). cbn in Hord. simplify_eq. lia.
  - intros r st' c Hrun Hin.
    rewrite (search_sends_criteria w req r st' c Hrun Hin). by split.
  - intros v st' Hrun. rewrite (search_echo w req st v st' k Hrun Hk).
    by rewrite args_get_first, Hempty.
Qed.

Lemma empty_filter_is_absent_witness :
  Webapp.search (Sample.mk Sample.env_search Sample.answering)
    [("level", ""); ("app", "svc-a")] init
  = Webapp.search (Sample.mk Sample.env_search Sample.answering)
      [("app", "svc-a")] init
  /\ criteria_of [("level", ""); ("app", "svc-a")] !! "level" = None.
Proof.
  destruct (empty_filter_is_absent (Sample.mk Sample.env_search Sample.answering)
              [("level", ""); ("app", "svc-a")] init "level")
    as (Hrun & _ & Hnone & _).
  - in_list.
  - reflexivity.
  - split; [exact Hrun | exact Hnone].
Defined.

(** * Further properties *)

Import Calls.

(** ** Bootstrapping the collection *)





(** ** The run of the generator *)















(** ** The records *)








(** ** The search handler *)













(** ** Date strings *)





(** ** Empty results and empty filters *)





